(** * AI-NewsLetter: the page controller and the editor modal

    A shallow embedding of the client-side state machine of the
    newsletter generator: the [Page] component (its [useState] hooks, its
    event handlers and the parts of its markup that gate the handlers)
    and the [EditorModal] component (its conversation history and the two
    effects that mirror it to [localStorage]).

    Handlers are asynchronous in the source.  A handler is a closure over
    the values of one render; its setter calls act on the live state, and
    an [await fetch] suspends it until the backend answers.  The embedding
    keeps this shape: a handler is a function from the render snapshot to
    a [Task], and [exec] runs a task against the live state up to its
    first suspension. *)

From Stdlib Require Import ZArith Ascii.
From stdpp Require Import base decidable option list strings gmap pretty.

Local Open Scope string_scope.

(** ** Data carried by the page *)

Module Article.
(** [type Article = { title, link, summary?, published?, source? }] *)
Record t : Type := mk {
    title : string;
    link : string;
    summary : option string;
    published : option string;
    source : option string
  }.
End Article.

Module Highlight.
(** The element type of the [highlights] hook. *)
Record t : Type := mk {
    title : string;
    link : string;
    source : option string;
    summary : string
  }.
End Highlight.

Module Tweet.
(** The element type of the [tweets] hook. *)
Record t : Type := mk {
    id : string;
    content : string;
    summary_title : string;
    summary_link : string;
    summary_source : string
  }.

(** [{ ...tweet, content: c }] *)
Definition with_content (c : string) (tw : t) : t :=
    mk (id tw) c (summary_title tw) (summary_link tw) (summary_source tw).
End Tweet.

Module Turn.
(** One conversation turn, [{ role, content }]. *)
Record t : Type := mk {
    role : string;
    content : string
  }.
End Turn.

(** ['summary' | `tweet-${number}` | 'newsletter'] *)
Inductive EditTarget : Type :=
| TargetSummary
| TargetTweet (idx : nat)
| TargetNewsletter.

(** JavaScript truthiness of the two kinds of value the handlers test. *)
Definition truthy (s : string) : bool :=
  match s with
  | EmptyString => false
  | String _ _ => true
  end.

Definition truthy_opt (o : option string) : bool :=
  match o with
  | Some s => truthy s
  | None => false
  end.

(** ** JSON text of a conversation *)

Module JSON.

(** The two built-ins the modal uses on its history, for the values the
    history holds: arrays of [{ role, content }] objects whose strings are
    sequences of 8-bit code units.  [stringify] writes the text
    [JSON.stringify] writes (no white space, keys in the order [role],
    [content], escapes as [QuoteJSONString] chooses them); [parse] reads
    that grammar, with every escape JSON allows inside a string (for code
    units below 256), and gives [None] on every other text.  The built-in
    reads more texts than these (white space, keys in another order,
    other values); the properties below use [parse] on the texts that
    [stringify] writes and on texts that the built-in rejects too. *)

Definition dquote : ascii := "034"%char.
Definition backslash : ascii := "092"%char.

Definition hex_digit (n : N) : ascii :=
  if (n <? 10)%N then ascii_of_N (48 + n) else ascii_of_N (87 + n).

Definition hex_value (c : ascii) : option N :=
  let n := N_of_ascii c in
  if (48 <=? n)%N && (n <=? 57)%N then Some (n - 48)%N
  else if (97 <=? n)%N && (n <=? 102)%N then Some (n - 87)%N
  else if (65 <=? n)%N && (n <=? 70)%N then Some (n - 55)%N
  else None.

(** The escape of one code unit. *)
Definition quote_char (c : ascii) : string :=
  if Ascii.eqb c dquote then String backslash (String dquote "")
  else if Ascii.eqb c backslash then String backslash (String backslash "")
  else if Ascii.eqb c "008" then String backslash "b"
  else if Ascii.eqb c "012" then String backslash "f"
  else if Ascii.eqb c "010" then String backslash "n"
  else if Ascii.eqb c "013" then String backslash "r"
  else if Ascii.eqb c "009" then String backslash "t"
  else if (N_of_ascii c <? 32)%N then
    String backslash
      (String "u" (String "0" (String "0"
        (String (hex_digit (N_of_ascii c / 16))
          (String (hex_digit (N_of_ascii c mod 16)) "")))))
  else String c "".

Fixpoint quote_chars (s : string) : string :=
  match s with
  | EmptyString => EmptyString
  | String c rest => quote_char c +:+ quote_chars rest
  end.

Definition quote (s : string) : string :=
  String dquote (quote_chars s +:+ String dquote "").

Definition push (c : ascii) (r : option (string * string)) : option (string * string) :=
  '(s, rest) ← r; Some (String c s, rest).

Fixpoint unquote_chars (s : string) : option (string * string) :=
  match s with
  | EmptyString => None
  | String c rest =>
      if Ascii.eqb c dquote then Some (EmptyString, rest)
      else if Ascii.eqb c backslash then
        match rest with
        | EmptyString => None
        | String e rest1 =>
            if Ascii.eqb e dquote then push dquote (unquote_chars rest1)
            else if Ascii.eqb e backslash then push backslash (unquote_chars rest1)
            else if Ascii.eqb e "/" then push "/" (unquote_chars rest1)
            else if Ascii.eqb e "b" then push "008" (unquote_chars rest1)
            else if Ascii.eqb e "f" then push "012" (unquote_chars rest1)
            else if Ascii.eqb e "n" then push "010" (unquote_chars rest1)
            else if Ascii.eqb e "r" then push "013" (unquote_chars rest1)
            else if Ascii.eqb e "t" then push "009" (unquote_chars rest1)
            else if Ascii.eqb e "u" then
              match rest1 with
              | String h1 (String h2 (String h3 (String h4 rest2))) =>
                  match hex_value h1, hex_value h2, hex_value h3, hex_value h4 with
                  | Some a, Some b, Some c, Some d =>
                      let n := (((a * 16 + b) * 16 + c) * 16 + d)%N in
                      if (n <? 256)%N then push (ascii_of_N n) (unquote_chars rest2)
                      else None
                  | _, _, _, _ => None
                  end
              | _ => None
              end
            else None
        end
      else if (N_of_ascii c <? 32)%N then None
      else push c (unquote_chars rest)
  end.

Definition unquote (s : string) : option (string * string) :=
  match s with
  | String c rest => if Ascii.eqb c dquote then unquote_chars rest else None
  | EmptyString => None
  end.

Fixpoint expect (prefix s : string) : option string :=
  match prefix with
  | EmptyString => Some s
  | String c prefix' =>
      match s with
      | String d s' => if Ascii.eqb c d then expect prefix' s' else None
      | EmptyString => None
      end
  end.

Definition key (name : string) : string := quote name +:+ ":".

Definition stringify_turn (t : Turn.t) : string :=
  "{" +:+ key "role" +:+ quote (Turn.role t) +:+ "," +:+ key "content"
  +:+ quote (Turn.content t) +:+ "}".

Fixpoint stringify_more (ts : list Turn.t) : string :=
  match ts with
  | [] => "]"
  | t :: ts' => "," +:+ stringify_turn t +:+ stringify_more ts'
  end.

Definition stringify (ts : list Turn.t) : string :=
  match ts with
  | [] => "[]"
  | t :: ts' => "[" +:+ stringify_turn t +:+ stringify_more ts'
  end.

Definition parse_turn (s : string) : option (Turn.t * string) :=
  s ← expect ("{" +:+ key "role") s;
  '(r, s) ← unquote s;
  s ← expect ("," +:+ key "content") s;
  '(c, s) ← unquote s;
  s ← expect "}" s;
  Some (Turn.mk r c, s).

Fixpoint parse_more (fuel : nat) (s : string) : option (list Turn.t * string) :=
  match fuel with
  | O => None
  | S fuel' =>
      match s with
      | String c rest =>
          if Ascii.eqb c "]" then Some ([], rest)
          else if Ascii.eqb c "," then
            '(t, s1) ← parse_turn rest;
            '(ts, s2) ← parse_more fuel' s1;
            Some (t :: ts, s2)
          else None
      | EmptyString => None
      end
  end.

Definition parse (s : string) : option (list Turn.t) :=
  s ← expect "[" s;
  match expect "]" s with
  | Some EmptyString => Some []
  | _ =>
      '(t, s1) ← parse_turn s;
      '(ts, s2) ← parse_more (String.length s1) s1;
      match s2 with
      | EmptyString => Some (t :: ts)
      | String _ _ => None
      end
  end.

End JSON.

(** ** The backend gateway *)

(** The JSON body of each request the components send. *)
Inductive Body : Type :=
| Aggregate (sources : list string)
| Highlights (session_id : string) (articles : list Article.t)
| SummariesSelected (articles : list Article.t)
| Tweets (session_id : string) (summaries : list Highlight.t)
| Newsletter (session_id summary_markdown : string) (articles : list Article.t)
| EditTweet (session_id tweet_id current_tweet original_summary user_message : string)
            (conversation_history : list Turn.t)
| Edit (session_id text instruction : string) (prior_history : list Turn.t)
| DownloadHtml (session_id html : string).

Record Request : Type := POST {
  url : string;
  body : Body
}.

Module EditTweetData.
(** The fields read from the answer to [/edit_tweet]. *)
Record t : Type := {
  new_tweet : string;
  conversation_history : list Turn.t;
  ai_response : string
}.
End EditTweetData.

Module EditData.
(** The fields read from the answer to [/edit]. *)
Record t : Type := {
  edited_text : string;
  history : list Turn.t
}.
End EditData.

(** What [await res.json()] holds for each request, field by field as
    the handlers read it. *)
Definition reply (b : Body) : Type :=
  match b with
  | Aggregate _ => list Article.t               (* data.articles *)
  | Highlights _ _ => string                    (* data.summary_markdown *)
  | SummariesSelected _ => option (list Highlight.t) (* data.items, possibly absent *)
  | Tweets _ _ => list Tweet.t                  (* data.tweets *)
  | Newsletter _ _ _ => string                  (* data.html *)
  | EditTweet _ _ _ _ _ _ => EditTweetData.t
  | Edit _ _ _ _ => EditData.t
  | DownloadHtml _ _ => unit                    (* the document, as a blob *)
  end.

(** A backend answers a request or fails it (rejected [fetch], body that
    is not JSON, or a status that the caller turns into an exception). *)
Definition Backend : Type := forall rq : Request, option (reply (body rq)).

(** ** Tasks: the body of an event handler *)

Inductive Task (S R : Type) : Type :=
| Return (v : R)
| Throw
| SetState (f : S -> S) (k : Task S R)
| Alert (msg : string) (k : Task S R)
| ConsoleError (msg : string) (k : Task S R)
| Await (rq : Request) (k : reply (body rq) -> Task S R) (catch : Task S R).

Arguments Return {S R} v.
Arguments Throw {S R}.
Arguments SetState {S R} f k.
Arguments Alert {S R} msg k.
Arguments ConsoleError {S R} msg k.
Arguments Await {S R} rq k catch.

(** Sequencing: [bind t f] continues a returning [t] with [f]; an
    exception of [t] propagates. *)
Fixpoint bind {S A B : Type} (t : Task S A) (f : A -> Task S B) : Task S B :=
  match t with
  | Return v => f v
  | Throw => Throw
  | SetState g k => SetState g (bind k f)
  | Alert msg k => Alert msg (bind k f)
  | ConsoleError msg k => ConsoleError msg (bind k f)
  | Await rq k catch => Await rq (fun data => bind (k data) f) (bind catch f)
  end.

(** [try { t } catch { handler }] *)
Fixpoint try_catch {S R : Type} (t : Task S R) (handler : Task S R) : Task S R :=
  match t with
  | Return v => Return v
  | Throw => handler
  | SetState g k => SetState g (try_catch k handler)
  | Alert msg k => Alert msg (try_catch k handler)
  | ConsoleError msg k => ConsoleError msg (try_catch k handler)
  | Await rq k catch =>
      Await rq (fun data => try_catch (k data) handler) (try_catch catch handler)
  end.

#[export] Instance Task_ret {S : Type} : MRet (Task S) := fun _ v => Return v.
#[export] Instance Task_bind {S : Type} : MBind (Task S) := fun _ _ f t => bind t f.

Definition setState {S : Type} (f : S -> S) : Task S unit := SetState f (Return tt).
Definition alert {S : Type} (msg : string) : Task S unit := Alert msg (Return tt).
Definition console_error {S : Type} (msg : string) : Task S unit :=
  ConsoleError msg (Return tt).

(** [await (await fetch(url, { method: 'POST', body })).json()] *)
Definition fetch_json {S : Type} (rq : Request) : Task S (reply (body rq)) :=
  Await rq Return Throw.

(** What the outside world sees of a run. *)
Inductive Effect : Type :=
| Sent (rq : Request)
| Alerted (msg : string)
| Logged (msg : string).

Inductive Status (S R : Type) : Type :=
| Finished (v : R)
| Thrown
| Waiting (rq : Request) (k : reply (body rq) -> Task S R) (catch : Task S R).

Arguments Finished {S R} v.
Arguments Thrown {S R}.
Arguments Waiting {S R} rq k catch.

Record Outcome (S R : Type) : Type := {
  live : S;
  trace : list Effect;
  status : Status S R
}.

Arguments live {S R} o.
Arguments trace {S R} o.
Arguments status {S R} o.

Definition emit {S R : Type} (e : Effect) (o : Outcome S R) : Outcome S R :=
  {| live := live o; trace := e :: trace o; status := status o |}.

(** Run a task on the live state [s] until it returns, throws or reaches
    an [await]. *)
Fixpoint exec {S R : Type} (t : Task S R) (s : S) : Outcome S R :=
  match t with
  | Return v => {| live := s; trace := []; status := Finished v |}
  | Throw => {| live := s; trace := []; status := Thrown |}
  | SetState f k => exec k (f s)
  | Alert msg k => emit (Alerted msg) (exec k s)
  | ConsoleError msg k => emit (Logged msg) (exec k s)
  | Await rq k catch =>
      {| live := s; trace := [Sent rq]; status := Waiting rq k catch |}
  end.

(** The backend's answer reaches a suspended handler while the live state
    is [s]. *)
Definition settle {S R : Type} (be : Backend) (st : Status S R) (s : S) : Outcome S R :=
  match st with
  | Waiting rq k catch =>
      match be rq with
      | Some data => exec (k data) s
      | None => exec catch s
      end
  | _ => {| live := s; trace := []; status := st |}
  end.

(** A run in which every request is answered before anything else
    happens. *)
Fixpoint complete {S R : Type} (be : Backend) (t : Task S R) (s : S) : Outcome S R :=
  match t with
  | Return v => {| live := s; trace := []; status := Finished v |}
  | Throw => {| live := s; trace := []; status := Thrown |}
  | SetState f k => complete be k (f s)
  | Alert msg k => emit (Alerted msg) (complete be k s)
  | ConsoleError msg k => emit (Logged msg) (complete be k s)
  | Await rq k catch =>
      emit (Sent rq)
        (match be rq with
         | Some data => complete be (k data) s
         | None => complete be catch s
         end)
  end.

Definition requests_of (tr : list Effect) : list Request :=
  omap (fun e => match e with Sent rq => Some rq | _ => None end) tr.

Definition alerts_of (tr : list Effect) : list string :=
  omap (fun e => match e with Alerted m => Some m | _ => None end) tr.

Definition is_waiting {S R : Type} (st : Status S R) : bool :=
  match st with Waiting _ _ _ => true | _ => false end.

(** A handler is built from the values of the render it was created in
    and then runs on the live state; at the moment of the call the two
    coincide. *)
Definition call {S R : Type} (handler : S -> Task S R) (s : S) : Outcome S R :=
  exec (handler s) s.


(** ** The editor modal *)

Module EditorModal.

Record Props : Type := {
  open : bool;
  initialText : string;
  sessionId : string;
  title : string;
  apiBase : string
}.

Record State : Type := mk {
  text : string;
  instruction : string;
  loading : bool;
  history : list Turn.t
}.

Definition setText (v : string) (s : State) : State :=
  mk v (instruction s) (loading s) (history s).

Definition setInstruction (v : string) (s : State) : State :=
  mk (text s) v (loading s) (history s).

Definition setLoading (v : bool) (s : State) : State :=
  mk (text s) (instruction s) v (history s).

Definition setHistory (v : list Turn.t) (s : State) : State :=
  mk (text s) (instruction s) (loading s) v.

Definition initial (props : Props) : State :=
  {| text := initialText props; instruction := "Improve clarity, keep links.";
     loading := false; history := [] |}.

(** [`mem_${sessionId}`] *)
Definition storage_key (props : Props) : string := "mem_" +:+ sessionId props.

(** [useEffect(..., [open, initialText])] *)
Definition text_effect (props : Props) (s : State) : State :=
  if open props then setText (initialText props) s else s.

(** [useEffect(..., [sessionId])]: read the saved history back.  The
    result is the state once the queued [setHistory] has been applied. *)
Definition load_effect (props : Props) (localStorage : gmap string string)
    (s : State) : State :=
  match localStorage !! storage_key props with
  | Some saved =>
      if truthy saved then
        match JSON.parse saved with
        | Some h => setHistory h s
        | None => s
        end
      else s
  | None => s
  end.

(** [useEffect(..., [history, sessionId])]: mirror the history of this
    render to the store. *)
Definition save_effect (props : Props) (s : State)
    (localStorage : gmap string string) : gmap string string :=
  <[storage_key props := JSON.stringify (history s)]> localStorage.

(** Mounting the component: the first render has the initial state; its
    effects run in order (the save effect still sees the empty history of
    that render); if the load effect set the history, the component
    renders again and the save effect runs again. *)
Definition mount (props : Props) (localStorage : gmap string string)
    : State * gmap string string :=
  let s0 := initial props in
  let s1 := load_effect props localStorage (text_effect props s0) in
  let stored := save_effect props s0 localStorage in
  match localStorage !! storage_key props with
  | Some saved =>
      if truthy saved && bool_decide (is_Some (JSON.parse saved))
      then (s1, save_effect props s1 stored)
      else (s1, stored)
  | None => (s1, stored)
  end.

(** [try { ... } catch (e) { console.error(e) } finally { setLoading(false) }];
    a response that is not [ok] is thrown like a failed request. *)
Definition applyEdit (props : Props) (s : State) : Task State unit :=
  setState (setLoading true);;
  try_catch
    (data ← (fetch_json (POST (apiBase props +:+ "/edit")
                           (Edit (sessionId props) (text s) (instruction s) (history s)))
              : Task State EditData.t);
     setState (setText (EditData.edited_text data));;
     setState (setHistory (EditData.history data)))
    (console_error "applyEdit failed");;
  setState (setLoading false).

(** The Apply button: in the markup when the modal is open,
    [disabled={loading}]. *)
Definition click_apply (props : Props) (s : State) : option (Task State unit) :=
  if open props && negb (loading s) then Some (applyEdit props s) else None.

End EditorModal.

(** ** The page component (the version with article selection, per-article
    summaries and inline tweet editing) *)

Module Page.

(** One field per [useState] hook, in the order of the source. *)
Record State : Type := mk {
  sessionId : string;
  apiBase : string;
  sources : list string;
  articles : list Article.t;
  summary : string;
  tweets : list Tweet.t;
  newsletterHtml : string;
  loading : bool;
  loadingHighlights : bool;
  loadingSummaries : bool;
  loadingTweets : bool;
  loadingNewsletter : bool;
  summariesMode : bool;
  pageIndex : Z;
  highlights : list Highlight.t;
  selectedArticles : list string;
  isPaginated : bool;
  currentEditingTweetId : option string;
  tweetConversations : gmap string (list Turn.t);
  pendingTweetUpdate : option string;
  editorOpen : bool;
  editorTitle : string;
  editorText : string;
  editTarget : EditTarget
}.

(** The setters returned by the hooks. *)
Definition setSources (v : list string) (s : State) : State :=
  mk (sessionId s) (apiBase s) v (articles s) (summary s) (tweets s)
    (newsletterHtml s) (loading s) (loadingHighlights s) (loadingSummaries s)
    (loadingTweets s) (loadingNewsletter s) (summariesMode s) (pageIndex s)
    (highlights s) (selectedArticles s) (isPaginated s)
    (currentEditingTweetId s) (tweetConversations s) (pendingTweetUpdate s)
    (editorOpen s) (editorTitle s) (editorText s) (editTarget s).

Definition setArticles (v : list Article.t) (s : State) : State :=
  mk (sessionId s) (apiBase s) (sources s) v (summary s) (tweets s)
    (newsletterHtml s) (loading s) (loadingHighlights s) (loadingSummaries s)
    (loadingTweets s) (loadingNewsletter s) (summariesMode s) (pageIndex s)
    (highlights s) (selectedArticles s) (isPaginated s)
    (currentEditingTweetId s) (tweetConversations s) (pendingTweetUpdate s)
    (editorOpen s) (editorTitle s) (editorText s) (editTarget s).

Definition setSummary (v : string) (s : State) : State :=
  mk (sessionId s) (apiBase s) (sources s) (articles s) v (tweets s)
    (newsletterHtml s) (loading s) (loadingHighlights s) (loadingSummaries s)
    (loadingTweets s) (loadingNewsletter s) (summariesMode s) (pageIndex s)
    (highlights s) (selectedArticles s) (isPaginated s)
    (currentEditingTweetId s) (tweetConversations s) (pendingTweetUpdate s)
    (editorOpen s) (editorTitle s) (editorText s) (editTarget s).

Definition setTweets (v : list Tweet.t) (s : State) : State :=
  mk (sessionId s) (apiBase s) (sources s) (articles s) (summary s) v
    (newsletterHtml s) (loading s) (loadingHighlights s) (loadingSummaries s)
    (loadingTweets s) (loadingNewsletter s) (summariesMode s) (pageIndex s)
    (highlights s) (selectedArticles s) (isPaginated s)
    (currentEditingTweetId s) (tweetConversations s) (pendingTweetUpdate s)
    (editorOpen s) (editorTitle s) (editorText s) (editTarget s).

Definition setNewsletterHtml (v : string) (s : State) : State :=
  mk (sessionId s) (apiBase s) (sources s) (articles s) (summary s)
    (tweets s) v (loading s) (loadingHighlights s) (loadingSummaries s)
    (loadingTweets s) (loadingNewsletter s) (summariesMode s) (pageIndex s)
    (highlights s) (selectedArticles s) (isPaginated s)
    (currentEditingTweetId s) (tweetConversations s) (pendingTweetUpdate s)
    (editorOpen s) (editorTitle s) (editorText s) (editTarget s).

Definition setLoadingHighlights (v : bool) (s : State) : State :=
  mk (sessionId s) (apiBase s) (sources s) (articles s) (summary s)
    (tweets s) (newsletterHtml s) (loading s) v (loadingSummaries s)
    (loadingTweets s) (loadingNewsletter s) (summariesMode s) (pageIndex s)
    (highlights s) (selectedArticles s) (isPaginated s)
    (currentEditingTweetId s) (tweetConversations s) (pendingTweetUpdate s)
    (editorOpen s) (editorTitle s) (editorText s) (editTarget s).

Definition setLoadingSummaries (v : bool) (s : State) : State :=
  mk (sessionId s) (apiBase s) (sources s) (articles s) (summary s)
    (tweets s) (newsletterHtml s) (loading s) (loadingHighlights s) v
    (loadingTweets s) (loadingNewsletter s) (summariesMode s) (pageIndex s)
    (highlights s) (selectedArticles s) (isPaginated s)
    (currentEditingTweetId s) (tweetConversations s) (pendingTweetUpdate s)
    (editorOpen s) (editorTitle s) (editorText s) (editTarget s).

Definition setLoadingTweets (v : bool) (s : State) : State :=
  mk (sessionId s) (apiBase s) (sources s) (articles s) (summary s)
    (tweets s) (newsletterHtml s) (loading s) (loadingHighlights s)
    (loadingSummaries s) v (loadingNewsletter s) (summariesMode s)
    (pageIndex s) (highlights s) (selectedArticles s) (isPaginated s)
    (currentEditingTweetId s) (tweetConversations s) (pendingTweetUpdate s)
    (editorOpen s) (editorTitle s) (editorText s) (editTarget s).

Definition setLoadingNewsletter (v : bool) (s : State) : State :=
  mk (sessionId s) (apiBase s) (sources s) (articles s) (summary s)
    (tweets s) (newsletterHtml s) (loading s) (loadingHighlights s)
    (loadingSummaries s) (loadingTweets s) v (summariesMode s) (pageIndex s)
    (highlights s) (selectedArticles s) (isPaginated s)
    (currentEditingTweetId s) (tweetConversations s) (pendingTweetUpdate s)
    (editorOpen s) (editorTitle s) (editorText s) (editTarget s).

Definition setSummariesMode (v : bool) (s : State) : State :=
  mk (sessionId s) (apiBase s) (sources s) (articles s) (summary s)
    (tweets s) (newsletterHtml s) (loading s) (loadingHighlights s)
    (loadingSummaries s) (loadingTweets s) (loadingNewsletter s) v
    (pageIndex s) (highlights s) (selectedArticles s) (isPaginated s)
    (currentEditingTweetId s) (tweetConversations s) (pendingTweetUpdate s)
    (editorOpen s) (editorTitle s) (editorText s) (editTarget s).

Definition setPageIndex (v : Z) (s : State) : State :=
  mk (sessionId s) (apiBase s) (sources s) (articles s) (summary s)
    (tweets s) (newsletterHtml s) (loading s) (loadingHighlights s)
    (loadingSummaries s) (loadingTweets s) (loadingNewsletter s)
    (summariesMode s) v (highlights s) (selectedArticles s) (isPaginated s)
    (currentEditingTweetId s) (tweetConversations s) (pendingTweetUpdate s)
    (editorOpen s) (editorTitle s) (editorText s) (editTarget s).

Definition setHighlights (v : list Highlight.t) (s : State) : State :=
  mk (sessionId s) (apiBase s) (sources s) (articles s) (summary s)
    (tweets s) (newsletterHtml s) (loading s) (loadingHighlights s)
    (loadingSummaries s) (loadingTweets s) (loadingNewsletter s)
    (summariesMode s) (pageIndex s) v (selectedArticles s) (isPaginated s)
    (currentEditingTweetId s) (tweetConversations s) (pendingTweetUpdate s)
    (editorOpen s) (editorTitle s) (editorText s) (editTarget s).

Definition setSelectedArticles (v : list string) (s : State) : State :=
  mk (sessionId s) (apiBase s) (sources s) (articles s) (summary s)
    (tweets s) (newsletterHtml s) (loading s) (loadingHighlights s)
    (loadingSummaries s) (loadingTweets s) (loadingNewsletter s)
    (summariesMode s) (pageIndex s) (highlights s) v (isPaginated s)
    (currentEditingTweetId s) (tweetConversations s) (pendingTweetUpdate s)
    (editorOpen s) (editorTitle s) (editorText s) (editTarget s).

Definition setIsPaginated (v : bool) (s : State) : State :=
  mk (sessionId s) (apiBase s) (sources s) (articles s) (summary s)
    (tweets s) (newsletterHtml s) (loading s) (loadingHighlights s)
    (loadingSummaries s) (loadingTweets s) (loadingNewsletter s)
    (summariesMode s) (pageIndex s) (highlights s) (selectedArticles s) v
    (currentEditingTweetId s) (tweetConversations s) (pendingTweetUpdate s)
    (editorOpen s) (editorTitle s) (editorText s) (editTarget s).

Definition setCurrentEditingTweetId (v : option string) (s : State) : State :=
  mk (sessionId s) (apiBase s) (sources s) (articles s) (summary s)
    (tweets s) (newsletterHtml s) (loading s) (loadingHighlights s)
    (loadingSummaries s) (loadingTweets s) (loadingNewsletter s)
    (summariesMode s) (pageIndex s) (highlights s) (selectedArticles s)
    (isPaginated s) v (tweetConversations s) (pendingTweetUpdate s)
    (editorOpen s) (editorTitle s) (editorText s) (editTarget s).

Definition setTweetConversations (v : gmap string (list Turn.t)) (s : State) : State :=
  mk (sessionId s) (apiBase s) (sources s) (articles s) (summary s)
    (tweets s) (newsletterHtml s) (loading s) (loadingHighlights s)
    (loadingSummaries s) (loadingTweets s) (loadingNewsletter s)
    (summariesMode s) (pageIndex s) (highlights s) (selectedArticles s)
    (isPaginated s) (currentEditingTweetId s) v (pendingTweetUpdate s)
    (editorOpen s) (editorTitle s) (editorText s) (editTarget s).

Definition setPendingTweetUpdate (v : option string) (s : State) : State :=
  mk (sessionId s) (apiBase s) (sources s) (articles s) (summary s)
    (tweets s) (newsletterHtml s) (loading s) (loadingHighlights s)
    (loadingSummaries s) (loadingTweets s) (loadingNewsletter s)
    (summariesMode s) (pageIndex s) (highlights s) (selectedArticles s)
    (isPaginated s) (currentEditingTweetId s) (tweetConversations s) v
    (editorOpen s) (editorTitle s) (editorText s) (editTarget s).

Definition setEditorOpen (v : bool) (s : State) : State :=
  mk (sessionId s) (apiBase s) (sources s) (articles s) (summary s)
    (tweets s) (newsletterHtml s) (loading s) (loadingHighlights s)
    (loadingSummaries s) (loadingTweets s) (loadingNewsletter s)
    (summariesMode s) (pageIndex s) (highlights s) (selectedArticles s)
    (isPaginated s) (currentEditingTweetId s) (tweetConversations s)
    (pendingTweetUpdate s) v (editorTitle s) (editorText s) (editTarget s).

Definition setEditorTitle (v : string) (s : State) : State :=
  mk (sessionId s) (apiBase s) (sources s) (articles s) (summary s)
    (tweets s) (newsletterHtml s) (loading s) (loadingHighlights s)
    (loadingSummaries s) (loadingTweets s) (loadingNewsletter s)
    (summariesMode s) (pageIndex s) (highlights s) (selectedArticles s)
    (isPaginated s) (currentEditingTweetId s) (tweetConversations s)
    (pendingTweetUpdate s) (editorOpen s) v (editorText s) (editTarget s).

Definition setEditorText (v : string) (s : State) : State :=
  mk (sessionId s) (apiBase s) (sources s) (articles s) (summary s)
    (tweets s) (newsletterHtml s) (loading s) (loadingHighlights s)
    (loadingSummaries s) (loadingTweets s) (loadingNewsletter s)
    (summariesMode s) (pageIndex s) (highlights s) (selectedArticles s)
    (isPaginated s) (currentEditingTweetId s) (tweetConversations s)
    (pendingTweetUpdate s) (editorOpen s) (editorTitle s) v (editTarget s).

Definition setEditTarget (v : EditTarget) (s : State) : State :=
  mk (sessionId s) (apiBase s) (sources s) (articles s) (summary s)
    (tweets s) (newsletterHtml s) (loading s) (loadingHighlights s)
    (loadingSummaries s) (loadingTweets s) (loadingNewsletter s)
    (summariesMode s) (pageIndex s) (highlights s) (selectedArticles s)
    (isPaginated s) (currentEditingTweetId s) (tweetConversations s)
    (pendingTweetUpdate s) (editorOpen s) (editorTitle s) (editorText s) v.

(** [setX(prev => f(prev))] *)
Definition functional {A : Type} (get : State -> A) (set : A -> State -> State)
    (f : A -> A) (s : State) : State :=
  set (f (get s)) s.

(** The hooks' initial values; [sid] stands for the random session id. *)
Definition initial (sid : string) : State :=
  {| sessionId := sid; apiBase := ""; sources := []; articles := [];
     summary := ""; tweets := []; newsletterHtml := ""; loading := false;
     loadingHighlights := false; loadingSummaries := false;
     loadingTweets := false; loadingNewsletter := false;
     summariesMode := false; pageIndex := 0; highlights := [];
     selectedArticles := []; isPaginated := true;
     currentEditingTweetId := None; tweetConversations := ∅;
     pendingTweetUpdate := None; editorOpen := false;
     editorTitle := "Editor"; editorText := ""; editTarget := TargetSummary |}.

(** [useMemo(() => !!summary, [summary])] *)
Definition hasHighlights (p : State) : bool := truthy (summary p).

Definition no_articles_message : string :=
  "No articles found for the selected sources in the past 7 days.".

Definition fetchAndSummarize (p : State) : Task State unit :=
  setState (setLoadingHighlights true);;
  try_catch
    (dataAgg ← (fetch_json (POST (apiBase p +:+ "/aggregate") (Aggregate (sources p)))
                 : Task State (list Article.t));
     let articleUrls := Article.link <$> dataAgg in
     dataSum ← (fetch_json (POST (apiBase p +:+ "/highlights")
                              (Highlights (sessionId p) dataAgg))
                 : Task State string);
     setState (setLoadingHighlights false);;
     setState (setArticles dataAgg);;
     setState (setSelectedArticles articleUrls);;
     (if bool_decide (0 < length dataAgg)
      then setState (setSummary dataSum)
      else setState (setSummary no_articles_message));;
     setState (setSummariesMode false))
    (setState (setLoadingHighlights false);; Throw).

Definition selection_limit_message (n : nat) : string :=
  "Please select 5 or fewer articles for summarization. You currently have "
  +:+ pretty n +:+ " articles selected.".

(** The request of [getHighlights]: only the selected articles are sent. *)
Definition summaries_request (p : State) : Request :=
  let selectedArticleData :=
    filter (fun a => Article.link a ∈ selectedArticles p) (articles p) in
  POST (apiBase p +:+ "/summaries_selected") (SummariesSelected selectedArticleData).

Definition getHighlights (p : State) : Task State unit :=
  if bool_decide (5 < length (selectedArticles p)) then
    alert (selection_limit_message (length (selectedArticles p)))
  else
    setState (setLoadingSummaries true);;
    try_catch
      (data ← (fetch_json (summaries_request p)
                : Task State (option (list Highlight.t)));
       let items := default [] data in
       setState (setLoadingSummaries false);;
       setState (setHighlights items);;
       setState (setSummariesMode true);;
       setState (setPageIndex 0))
      (setState (setLoadingSummaries false);; Throw).

Definition resetSummaries (p : State) : Task State unit :=
  setState (setSummariesMode false);;
  setState (setSummary "");;
  setState (setArticles []);;
  setState (setTweets []);;
  setState (setNewsletterHtml "");;
  setState (setPageIndex 0);;
  setState (setHighlights []);;
  setState (setSelectedArticles []);;
  setState (setIsPaginated true).

Definition toggleArticleSelection (articleUrl : string) (p : State) : Task State unit :=
  setState (functional selectedArticles setSelectedArticles (fun prev =>
    if bool_decide (articleUrl ∈ prev)
    then filter (fun url => url ≠ articleUrl) prev
    else (prev ++ [articleUrl])%list)).

Definition selectAllArticles (p : State) : Task State unit :=
  setState (setSelectedArticles (Article.link <$> articles p)).

Definition deselectAllArticles (p : State) : Task State unit :=
  setState (setSelectedArticles []).

Definition makeTweets (p : State) : Task State unit :=
  setState (setLoadingTweets true);;
  try_catch
    (data ← (fetch_json (POST (apiBase p +:+ "/tweets")
                           (Tweets (sessionId p) (highlights p)))
              : Task State (list Tweet.t));
     setState (setLoadingTweets false);;
     setState (setTweets data))
    (setState (setLoadingTweets false);; Throw).

Definition makeNewsletter (p : State) : Task State unit :=
  setState (setLoadingNewsletter true);;
  try_catch
    (data ← (fetch_json (POST (apiBase p +:+ "/newsletter")
                           (Newsletter (sessionId p) (summary p) (articles p)))
              : Task State string);
     setState (setLoadingNewsletter false);;
     setState (setNewsletterHtml data))
    (setState (setLoadingNewsletter false);; Throw).

Definition openEditor (target : EditTarget) (p : State) : Task State unit :=
  setState (setEditTarget target);;
  match target with
  | TargetSummary =>
      setState (setEditorTitle "Edit Summary");;
      setState (setEditorText (summary p))
  | TargetTweet idx =>
      setState (setEditorTitle ("Edit Tweet " +:+ pretty (idx + 1)));;
      setState (setEditorText (from_option Tweet.content "" (tweets p !! idx)))
  | TargetNewsletter =>
      setState (setEditorTitle "Edit Newsletter (HTML)");;
      setState (setEditorText (newsletterHtml p))
  end;;
  setState (setEditorOpen true).

Definition openTweetEditor (tweet : Tweet.t) (p : State) : Task State unit :=
  if bool_decide (currentEditingTweetId p = Some (Tweet.id tweet)) then
    setState (setCurrentEditingTweetId None);;
    setState (setPendingTweetUpdate None)
  else
    setState (setCurrentEditingTweetId (Some (Tweet.id tweet)));;
    setState (setPendingTweetUpdate None).

Definition edit_error_reply : string :=
  "Sorry, I encountered an error while processing your request.".

(** The part of [sendTweetMessage] after [await res.json()]; [currentTweet]
    is the tweet found when the handler was called. *)
Definition sendTweetMessage_resolved (currentTweet : Tweet.t) (data : EditTweetData.t)
    : Task State (option string) :=
  setState (setPendingTweetUpdate (Some (EditTweetData.new_tweet data)));;
  setState (functional tweetConversations setTweetConversations (fun prev =>
    <[Tweet.id currentTweet := EditTweetData.conversation_history data]> prev));;
  Return (Some (EditTweetData.ai_response data)).

Definition edit_tweet_request (message : string) (currentTweet : Tweet.t) (p : State)
    : Request :=
  POST (apiBase p +:+ "/edit_tweet")
    (EditTweet (sessionId p) (Tweet.id currentTweet) (Tweet.content currentTweet)
       (from_option Highlight.summary ""
          (List.find (fun h => bool_decide (Highlight.link h = Tweet.summary_link currentTweet))
             (highlights p)))
       message
       (default [] (tweetConversations p !! Tweet.id currentTweet))).

Definition sendTweetMessage (message : string) (p : State) : Task State (option string) :=
  match currentEditingTweetId p with
  | None => Return None
  | Some editing =>
      if negb (truthy editing) then Return None else
      match List.find (fun t => bool_decide (Tweet.id t = editing)) (tweets p) with
      | None => Return None
      | Some currentTweet =>
          try_catch
            (data ← (fetch_json (edit_tweet_request message currentTweet p)
                      : Task State EditTweetData.t);
             sendTweetMessage_resolved currentTweet data)
            (console_error "Error editing tweet:";;
             Return (Some edit_error_reply))
      end
  end.

Definition acceptTweetUpdate (p : State) : Task State unit :=
  match currentEditingTweetId p, pendingTweetUpdate p with
  | Some editing, Some pending =>
      if negb (truthy editing) || negb (truthy pending) then Return tt else
      let updatedTweets :=
        (fun tweet => if bool_decide (Tweet.id tweet = editing)
                      then Tweet.with_content pending tweet
                      else tweet) <$> tweets p in
      setState (setTweets updatedTweets);;
      setState (setPendingTweetUpdate None)
  | _, _ => Return tt
  end.

Definition rejectTweetUpdate (p : State) : Task State unit :=
  setState (setPendingTweetUpdate None).

(** The [onCloseEditor] callback handed to the tweet cards. *)
Definition onCloseEditor (p : State) : Task State unit :=
  setState (setCurrentEditingTweetId None);;
  setState (setPendingTweetUpdate None).

Definition onEditorDone (newText : string) (p : State) : Task State unit :=
  match editTarget p with
  | TargetSummary => setState (setSummary newText)
  | TargetTweet idx =>
      match tweets p !! idx with
      | Some tw => setState (setTweets (<[idx := Tweet.with_content newText tw]> (tweets p)))
      | None => Return tt
      end
  | TargetNewsletter => setState (setNewsletterHtml newText)
  end.

(** [download] hands the document to the browser and sets no state. *)
Definition download (p : State) : Task State unit :=
  _ ← (fetch_json (POST (apiBase p +:+ "/download_html")
                     (DownloadHtml (sessionId p) (newsletterHtml p)))
        : Task State unit);
  Return tt.

(** The test [currentEditingTweetId === tweet.id] by which a tweet is the
    one open in the inline editor. *)
Definition isEditing (tweet_id : string) (p : State) : bool :=
  bool_decide (currentEditingTweetId p = Some tweet_id).

(** The props of the [<EditorModal ... />] element of the markup. *)
Definition editorModal (p : State) : EditorModal.Props :=
  {| EditorModal.open := editorOpen p;
     EditorModal.initialText := editorText p;
     EditorModal.sessionId := sessionId p;
     EditorModal.title := editorTitle p;
     EditorModal.apiBase := apiBase p |}.

(** *** The controls of the markup that start handlers *)

Inductive Button : Type :=
| GetHighlightsButton
| ResetButton
| GetSummariesButton
| GenerateTweetsButton
| GenerateNewsletterButton
| PreviousButton
| NextButton.

(** Whether the markup contains the control in this render. *)
Definition rendered (b : Button) (p : State) : bool :=
  match b with
  | GetHighlightsButton => negb (hasHighlights p) && negb (summariesMode p)
  | GetSummariesButton => hasHighlights p && negb (summariesMode p)
  | ResetButton => (hasHighlights p && negb (summariesMode p)) || summariesMode p
  | GenerateTweetsButton | GenerateNewsletterButton => true
  | PreviousButton | NextButton =>
      summariesMode p && isPaginated p && bool_decide (1 < length (highlights p))
  end.

(** Its [disabled] attribute. *)
Definition disabled (b : Button) (p : State) : bool :=
  match b with
  | GetHighlightsButton => loadingHighlights p
  | ResetButton => false
  | GetSummariesButton =>
      loadingSummaries p || bool_decide (length (selectedArticles p) = 0)
  | GenerateTweetsButton =>
      bool_decide (length (highlights p) = 0) || loadingTweets p
  | GenerateNewsletterButton =>
      bool_decide (length (highlights p) = 0) || loadingNewsletter p
  | PreviousButton => bool_decide (pageIndex p = 0)%Z
  | NextButton => bool_decide (pageIndex p = Z.of_nat (length (highlights p)) - 1)%Z
  end.

(** Its [onClick]. *)
Definition onClick (b : Button) (p : State) : Task State unit :=
  match b with
  | GetHighlightsButton => fetchAndSummarize p
  | ResetButton => resetSummaries p
  | GetSummariesButton => getHighlights p
  | GenerateTweetsButton => makeTweets p
  | GenerateNewsletterButton => makeNewsletter p
  | PreviousButton => setState (setPageIndex (Z.max 0 (pageIndex p - 1)))
  | NextButton =>
      setState (setPageIndex (Z.min (Z.of_nat (length (highlights p)) - 1)
                                    (pageIndex p + 1)))
  end%Z.

(** A click reaches the handler only through a control that is in the
    markup and not disabled. *)
Definition click (b : Button) (p : State) : option (Task State unit) :=
  if rendered b p && negb (disabled b p) then Some (onClick b p) else None.

(** The operation's in-flight flag. *)
Definition in_flight (b : Button) (p : State) : bool :=
  match b with
  | GetHighlightsButton => loadingHighlights p
  | GetSummariesButton => loadingSummaries p
  | GenerateTweetsButton => loadingTweets p
  | GenerateNewsletterButton => loadingNewsletter p
  | ResetButton | PreviousButton | NextButton => false
  end.

End Page.

(** ** A session: user events and backend answers, interleaved *)

Module Session.
Import Page.

(** In every state the session can be in, the cursor is on a highlight,
    or on 0 when there is none. *)
Definition cursor_ok (p : State) : Prop :=
  (0 <= pageIndex p)%Z
  /\ (pageIndex p = 0 \/ pageIndex p < Z.of_nat (length (highlights p)))%Z.

(** What the user can do to the page. *)
Inductive UserEvent : Type :=
| Click (b : Button)
| ToggleArticle (articleUrl : string)
| SelectAll
| DeselectAll
| SetPaginated (checked : bool)
| PickSources (selected : list string)
| EditNewsletter
| Download
| EditorDone (newText : string)
| EditorClose
| TweetEdit (idx : nat)
| TweetSend (message : string)
| TweetAccept
| TweetReject
| TweetClose.

(** The result of a handler that nobody awaits is dropped. *)
Definition forget {S R : Type} (t : Task S R) : Task S unit :=
  bind t (fun _ => Return tt).

(** The handler the event starts in the render [p], when the markup of
    [p] has the control.  The tweet cards get their callbacks as props;
    here a callback can be called whenever the cards are rendered, which
    is more than the controls of the cards allow ([Markup.offered] has
    those). *)
Definition handler (e : UserEvent) (p : State) : option (Task State unit) :=
  let articles_listed := negb (summariesMode p) && bool_decide (0 < length (articles p)) in
  let cards := bool_decide (0 < length (tweets p)) in
  match e with
  | Click b => click b p
  | ToggleArticle articleUrl =>
      if articles_listed && bool_decide (articleUrl ∈ Article.link <$> articles p)
      then Some (toggleArticleSelection articleUrl p) else None
  | SelectAll => if articles_listed then Some (selectAllArticles p) else None
  | DeselectAll => if articles_listed then Some (deselectAllArticles p) else None
  | SetPaginated checked =>
      if summariesMode p
      then Some (setState (setIsPaginated checked);; setState (setPageIndex 0))
      else None
  | PickSources selected => Some (setState (setSources selected))
  | EditNewsletter =>
      if truthy (newsletterHtml p) then Some (openEditor TargetNewsletter p) else None
  | Download => if truthy (newsletterHtml p) then Some (download p) else None
  | EditorDone newText =>
      if editorOpen p
      then Some (onEditorDone newText p;; setState (setEditorOpen false))
      else None
  | EditorClose => if editorOpen p then Some (setState (setEditorOpen false)) else None
  | TweetEdit idx => tweet ← tweets p !! idx; Some (openTweetEditor tweet p)
  | TweetSend message => if cards then Some (forget (sendTweetMessage message p)) else None
  | TweetAccept => if cards then Some (acceptTweetUpdate p) else None
  | TweetReject => if cards then Some (rejectTweetUpdate p) else None
  | TweetClose => if cards then Some (onCloseEditor p) else None
  end.

(** The page, the handlers suspended at an [await], and what has been
    sent and shown so far. *)
Record World : Type := {
  page : State;
  pending : list (Status State unit);
  log : list Effect
}.

Definition start (sid : string) : World :=
  {| page := initial sid; pending := []; log := [] |}.

Inductive Event : Type :=
| User (e : UserEvent)
| Answer (i : nat) (be : Backend).

Definition suspended (st : Status State unit) : list (Status State unit) :=
  if is_waiting st then [st] else [].

(** One event.  [None] when the event cannot happen in this world: the
    control is not there, or no request with that number is outstanding. *)
Definition step (ev : Event) (w : World) : option World :=
  match ev with
  | User e =>
      t ← handler e (page w);
      let o := exec t (page w) in
      Some {| page := live o;
              pending := pending w ++ suspended (status o);
              log := log w ++ trace o |}
  | Answer i be =>
      st ← pending w !! i;
      let o := settle be st (page w) in
      Some {| page := live o;
              pending := delete i (pending w) ++ suspended (status o);
              log := log w ++ trace o |}
  end.

Fixpoint run (evs : list Event) (w : World) : option World :=
  match evs with
  | [] => Some w
  | ev :: evs' => w' ← step ev w; run evs' w'
  end.

(** [safe I acc t]: started in a state that [acc] made from one
    satisfying [I], the task [t] re-establishes [I] whenever it stops, at
    every [await] and at its end, whatever the state it is resumed in. *)
Fixpoint safe {S R : Type} (I : S -> Prop) (acc : S -> S) (t : Task S R) : Prop :=
  match t with
  | Return _ | Throw => forall s, I s -> I (acc s)
  | SetState f k => safe I (f ∘ acc) k
  | Alert _ k | ConsoleError _ k => safe I acc k
  | Await rq k catch =>
      (forall s, I s -> I (acc s))
      /\ (forall data, safe I id (k data))
      /\ safe I id catch
  end.

Definition status_safe {S R : Type} (I : S -> Prop) (st : Status S R) : Prop :=
  match st with
  | Waiting rq k catch => (forall data, safe I id (k data)) /\ safe I id catch
  | _ => True
  end.

Definition good (w : World) : Prop :=
  cursor_ok (page w) /\ Forall (status_safe cursor_ok) (pending w).

(** Proves [safe cursor_ok acc t] for a handler [t]: split the handler's
    cases, walk to each of its stops, and see that the cursor and the
    highlights are untouched there or that the cursor is 0. *)
Ltac solve_safe :=
  repeat first
    [ progress cbn -[cursor_ok]
    | case_bool_decide
    | case_match
    | match goal with |- _ /\ _ => split end
    | intro ];
  try done;
  unfold cursor_ok in *; cbn in *;
  first [ assumption | split; [lia | left; reflexivity] ].

End Session.

(** ** Sample data for the worked examples *)

Module Sample.
Import Page Session.

Definition article (n : nat) : Article.t :=
  Article.mk ("Article " +:+ pretty n) ("https://example.org/a" +:+ pretty n)
    None None (Some "Example Feed").

Definition highlight_of (a : Article.t) : Highlight.t :=
  Highlight.mk (Article.title a) (Article.link a) (Article.source a)
    ("Summary of " +:+ Article.title a).

Definition tweet_of (h : Highlight.t) : Tweet.t :=
  Tweet.mk ("tweet-of-" +:+ Highlight.link h) (Highlight.summary h)
    (Highlight.title h) (Highlight.link h) (default "" (Highlight.source h)).

Definition tweetA : Tweet.t :=
  Tweet.mk "t1" "Big launch today" "Article 1" "https://example.org/a1" "Example Feed".

Definition tweetB : Tweet.t :=
  Tweet.mk "t2" "Benchmarks are in" "Article 2" "https://example.org/a2" "Example Feed".

Definition user (c : string) : Turn.t := Turn.mk "user" c.
Definition assistant (c : string) : Turn.t := Turn.mk "assistant" c.

(** A backend that answers every request. *)
Definition backend : Backend := fun rq =>
  match body rq as b return option (reply b) with
  | Aggregate _ => Some (article <$> [1; 2; 3; 4; 5; 6])
  | Highlights _ _ => Some "Weekly highlights"
  | SummariesSelected arts => Some (Some (highlight_of <$> arts))
  | Tweets _ hs => Some (tweet_of <$> hs)
  | Newsletter _ _ _ => Some "<html>newsletter</html>"
  | EditTweet _ _ _ _ message past =>
      Some {| EditTweetData.new_tweet := "Launch day";
              EditTweetData.conversation_history :=
                (past ++ [user message; assistant "Shortened."])%list;
              EditTweetData.ai_response := "Shortened." |}
  | Edit _ t _ past =>
      Some {| EditData.edited_text := t;
              EditData.history := (past ++ [assistant "Done."])%list |}
  | DownloadHtml _ _ => Some tt
  end.

(** Six articles fetched, all of them selected by default. *)
Definition fetched : State :=
  live (complete backend (fetchAndSummarize (initial "s1")) (initial "s1")).

(** Nothing selected. *)
Definition deselected : State := live (call deselectAllArticles fetched).

(** Five highlights on screen with the cursor on the last one, and two
    articles selected for the next summarization. *)
Definition on_last_page : State :=
  setPageIndex 4
    (setHighlights (highlight_of ∘ article <$> [1; 2; 3; 4; 5])
       (setSelectedArticles (Article.link ∘ article <$> [1; 2]) fetched)).

(** Two tweets, the first one open in the inline editor with one earlier
    exchange and a pending proposal. *)
Definition editingA : State :=
  setPendingTweetUpdate (Some "Launch day!")
    (setTweetConversations {[ "t1" := [user "punchier"; assistant "Here you go."] ]}
       (setCurrentEditingTweetId (Some "t1")
          (setTweets [tweetA; tweetB]
             (setHighlights (highlight_of ∘ article <$> [1; 2]) fetched)))).

(** 281 characters. *)
Definition long_text : string :=
  String.string_of_list_ascii (replicate 281 "x"%char).

Definition editingA_long : State := setPendingTweetUpdate (Some long_text) editingA.

(** The tweet request is in flight. *)
Definition tweets_in_flight : State := setLoadingTweets true editingA.

(** The summaries request is in flight. *)
Definition summaries_in_flight : State := setLoadingSummaries true on_last_page.

(** Tweet A is open in the editor, nothing is pending, and the user sends
    a message; the request is outstanding. *)
Definition editingA_idle : State := setPendingTweetUpdate None editingA.

Definition asked : Outcome State (option string) :=
  call (sendTweetMessage "shorter") editingA_idle.

(** Meanwhile the user opens the editor on tweet B ... *)
Definition switched : State := live (call (openTweetEditor tweetB) (live asked)).

(** ... or resets the page. *)
Definition reset_meanwhile : State := live (call resetSummaries (live asked)).

(** Then the answer for tweet A arrives. *)
Definition answered_after_switch : State := live (settle backend (status asked) switched).

Definition answered_after_reset : State :=
  live (settle backend (status asked) reset_meanwhile).

(** The page while the summary is open in the modal editor, and while the
    newsletter is: two entities of one session. *)
Definition editing_summary : State := live (call (openEditor TargetSummary) fetched).
Definition editing_newsletter : State := live (call (openEditor TargetNewsletter) fetched).

Definition summary_talk : list Turn.t := [user "tighten the intro"; assistant "Done."].
Definition newsletter_talk : list Turn.t := [user "add a footer"].

Definition modal_with (props : EditorModal.Props) (h : list Turn.t) : EditorModal.State :=
  EditorModal.setHistory h (EditorModal.initial props).

(** The store after the summary's conversation was saved ... *)
Definition stored_summary : gmap string string :=
  EditorModal.save_effect (editorModal editing_summary)
    (modal_with (editorModal editing_summary) summary_talk) ∅.

(** ... and after the newsletter's conversation was saved as well. *)
Definition stored_both : gmap string string :=
  EditorModal.save_effect (editorModal editing_newsletter)
    (modal_with (editorModal editing_newsletter) newsletter_talk) stored_summary.

(** The modal of another session. *)
Definition other_session : EditorModal.Props :=
  editorModal (live (call (openEditor TargetSummary) (initial "s2"))).

(** Sessions as the user drives them.  Every request is answered by
    [backend]; [answer] delivers the oldest outstanding one. *)
Definition answer : Event := Answer 0 backend.

Definition link_of (n : nat) : string := Article.link (article n).

(** Get Highlights, both answers; then only articles 1 and 2 selected;
    Get Summaries; Generate X/Tweets. *)
Definition tweets_story : list Event :=
  [User (Click GetHighlightsButton); answer; answer;
   User DeselectAll; User (ToggleArticle (link_of 1)); User (ToggleArticle (link_of 2));
   User (Click GetSummariesButton); answer;
   User (Click GenerateTweetsButton); answer].

(** The editor is opened on the first tweet and a message is sent; before
    the answer is there the editor is opened on the second tweet. *)
Definition switch_story : list Event :=
  tweets_story ++ [User (TweetEdit 0); User (TweetSend "shorter"); User (TweetEdit 1)].

(** Five articles are sent for summarization.  Before the answer is there
    the user resets and fetches again.  The five summaries arrive and the
    user pages to the last one; then the second fetch is answered and the
    article list is back.  Two articles are selected and sent for
    summarization; the story stops before the answer. *)
Definition before_replacement_story : list Event :=
  [User (Click GetHighlightsButton); answer; answer;
   User (ToggleArticle (link_of 6));
   User (Click GetSummariesButton);
   User (Click ResetButton);
   User (Click GetHighlightsButton);
   answer;
   User (Click NextButton); User (Click NextButton);
   User (Click NextButton); User (Click NextButton);
   answer; answer;
   User DeselectAll; User (ToggleArticle (link_of 1)); User (ToggleArticle (link_of 2));
   User (Click GetSummariesButton)].

(** The page a story ends in, if the story can happen. *)
Definition page_after (evs : list Event) : option State :=
  page <$> run evs (start "s1").

End Sample.

(** ** The tweet cards: the component the page renders for its tweets *)

Module TweetCards.
Import Page.

(** The component keeps no state of its own: it reads the fields of the
    page, which it gets as props, and calls the callbacks of the page.  It
    renders one card per tweet, and the page renders it when there is at
    least one tweet. *)

(** [tweetConversations[tweet.id] || []] *)
Definition conversation (tweet : Tweet.t) (p : State) : list Turn.t :=
  default [] (tweetConversations p !! Tweet.id tweet).

(** [hasUpdateInMessage], for the turn [msg] at index [i] of the card's
    conversation. *)
Definition hasUpdateInMessage (tweet : Tweet.t) (p : State) (i : nat) (msg : Turn.t)
    : bool :=
  truthy_opt (pendingTweetUpdate p)
  && bool_decide (i = length (conversation tweet p) - 1)
  && bool_decide (Turn.role msg = "assistant").

(** Whether the card shows the suggested tweet: it is the card of the
    tweet being edited, and a turn of its conversation has the update. *)
Definition suggestion (tweet : Tweet.t) (p : State) : bool :=
  isEditing (Tweet.id tweet) p
  && existsb (fun '(i, msg) => hasUpdateInMessage tweet p i msg)
       (imap pair (conversation tweet p)).

(** The controls of a card that call the page. *)
Inductive Control : Type :=
| EditWithAI
| Close
| Accept
| Reject
| Send (message : string).

(** Whether the card of [tweet] has the control in this render. *)
Definition rendered (c : Control) (tweet : Tweet.t) (p : State) : bool :=
  match c with
  | EditWithAI => negb (isEditing (Tweet.id tweet) p)
  | Close | Send _ => isEditing (Tweet.id tweet) p
  | Accept | Reject => suggestion tweet p
  end.

(** Its [disabled] attribute: [pendingTweetUpdate.length > 280] on Accept. *)
Definition disabled (c : Control) (p : State) : bool :=
  match c, pendingTweetUpdate p with
  | Accept, Some pending => bool_decide (280 < String.length pending)
  | _, _ => false
  end.


(** The white space [trim] removes, among the code units below 256. *)
Definition is_space (c : ascii) : bool :=
  let n := N_of_ascii c in
  (((9 <=? n) && (n <=? 13)) || (n =? 32) || (n =? 160))%N.

(** [!message.trim()] *)
Fixpoint blank (message : string) : bool :=
  match message with
  | EmptyString => true
  | String c rest => is_space c && blank rest
  end.

(** The [onSubmit] of the message form; what [onSendMessage] returns is
    dropped. *)
Definition onSubmit (message : string) (p : State) : Task State unit :=
  if blank message then Return tt
  else bind (sendTweetMessage message p) (fun _ => Return tt).

Definition onClick (c : Control) (tweet : Tweet.t) (p : State) : Task State unit :=
  match c with
  | EditWithAI => openTweetEditor tweet p
  | Close => onCloseEditor p
  | Accept => acceptTweetUpdate p
  | Reject => rejectTweetUpdate p
  | Send message => onSubmit message p
  end.

(** A click on the control [c] of the card at [idx]: the handler it
    starts, if the card is there and has the control enabled. *)
Definition click (idx : nat) (c : Control) (p : State) : option (Task State unit) :=
  tweet ← tweets p !! idx;
  if rendered c tweet p && negb (disabled c p) then Some (onClick c tweet p) else None.

End TweetCards.

(** ** The events the markup offers *)

Module Markup.
Import Page Session.

(** Whether some card of the render [p] has the control, enabled. *)
Definition card_has (c : TweetCards.Control) (p : State) : bool :=
  existsb (fun tweet => TweetCards.rendered c tweet p && negb (TweetCards.disabled c p))
    (tweets p).

(** Whether the markup of the render [p] lets the user start the event.
    [handler] tests this itself for the controls of the page; the
    callbacks that the page hands to the tweet cards are started by the
    controls of the cards, and a blank message is not sent. *)
Definition offered (e : UserEvent) (p : State) : bool :=
  match e with
  | TweetEdit idx =>
      from_option (fun tweet => TweetCards.rendered TweetCards.EditWithAI tweet p) false
        (tweets p !! idx)
  | TweetSend message =>
      card_has (TweetCards.Send message) p && negb (TweetCards.blank message)
  | TweetAccept => card_has TweetCards.Accept p
  | TweetReject => card_has TweetCards.Reject p
  | TweetClose => card_has TweetCards.Close p
  | _ => true
  end.

(** Whether the events can happen in this order from [w] with every user
    event offered by the markup of its moment. *)
Fixpoint offered_run (evs : list Event) (w : World) : bool :=
  match evs with
  | [] => true
  | ev :: evs' =>
      match ev with
      | User e => offered e (page w)
      | Answer _ _ => true
      end
      && from_option (offered_run evs') false (step ev w)
  end.

End Markup.

(** ** Sessions on the tweet cards *)

Module Story.
Import Page Session.

(** A backend whose tweet editor proposes a text made from the tweet it
    was sent. *)
Definition backend : Backend := fun rq =>
  match body rq as b return option (reply b) with
  | EditTweet _ _ current_tweet _ message past =>
      Some {| EditTweetData.new_tweet := "Re: " +:+ current_tweet;
              EditTweetData.conversation_history :=
                (past ++ [Sample.user message; Sample.assistant "Done."])%list;
              EditTweetData.ai_response := "Done." |}
  | other => Sample.backend (POST (url rq) other)
  end.

Definition reply : Event := Answer 0 backend.

(** Two tweets are generated.  The second is opened, a message is sent
    and answered, and the suggestion is rejected.  Then the first is
    opened and a message is sent; before the answer is there the second
    is opened again. *)
Definition stale : list Event :=
  Sample.tweets_story
  ++ [User (TweetEdit 1); User (TweetSend "punchier"); reply; User TweetReject;
      User (TweetEdit 0); User (TweetSend "shorter"); User (TweetEdit 1)].

(** A message for the first tweet is sent, and the page is reset before
    the answer is there. *)
Definition reset_meanwhile : list Event :=
  Sample.tweets_story
  ++ [User (TweetEdit 0); User (TweetSend "shorter"); User (Click ResetButton)].

(** Tweets and a newsletter are generated.  The first tweet is opened, a
    message is sent and answered; with the suggestion on screen the user
    clicks the newsletter's Edit with AI. *)
Definition both_editors : list Event :=
  Sample.tweets_story
  ++ [User (Click GenerateNewsletterButton); Sample.answer;
      User (TweetEdit 0); User (TweetSend "shorter"); reply;
      User EditNewsletter].

End Story.

(** ** Names for the requests and flags of the pipeline *)

Module Pipeline.
Import Page.

(** The two requests of [fetchAndSummarize], and those of [makeTweets] and
    [makeNewsletter], as the handlers build them. *)
Definition aggregate_request (p : State) : Request :=
  POST (apiBase p +:+ "/aggregate") (Aggregate (sources p)).

Definition highlights_request (p : State) (fetched : list Article.t) : Request :=
  POST (apiBase p +:+ "/highlights") (Highlights (sessionId p) fetched).

Definition tweets_request (p : State) : Request :=
  POST (apiBase p +:+ "/tweets") (Tweets (sessionId p) (highlights p)).

Definition newsletter_request (p : State) : Request :=
  POST (apiBase p +:+ "/newsletter") (Newsletter (sessionId p) (summary p) (articles p)).

(** The setter of the loading flag that belongs to a button. *)
Definition set_in_flight (b : Button) (v : bool) (s : State) : State :=
  match b with
  | GetHighlightsButton => setLoadingHighlights v s
  | GetSummariesButton => setLoadingSummaries v s
  | GenerateTweetsButton => setLoadingTweets v s
  | GenerateNewsletterButton => setLoadingNewsletter v s
  | ResetButton | PreviousButton | NextButton => s
  end.

(** The articles whose check box is checked: what [getHighlights] sends. *)
Definition checked_articles (p : State) : list Article.t :=
  filter (fun a => Article.link a ∈ selectedArticles p) (articles p).

(** The page once [fetchAndSummarize], called in [p], has run to its end
    against the backend [be]. *)
Definition after_fetch (be : Backend) (p : State) : Outcome State unit :=
  complete be (fetchAndSummarize p) p.

(** The page once [sendTweetMessage], called in [p], has run to its end
    against [be]; and the page after Accept was clicked in [p]. *)
Definition after_message (be : Backend) (message : string) (p : State) : State :=
  live (complete be (sendTweetMessage message p) p).

Definition after_accept (p : State) : State := live (call acceptTweetUpdate p).

(** The page after the check box of [articleUrl] was clicked in [p]. *)
Definition toggled (articleUrl : string) (p : State) : State :=
  live (call (toggleArticleSelection articleUrl) p).



(** The request of the modal's [applyEdit], and the modal once [applyEdit],
    called in [s], has run to its end against [be]. *)
Definition edit_request (props : EditorModal.Props) (s : EditorModal.State) : Request :=
  POST (EditorModal.apiBase props +:+ "/edit")
    (Edit (EditorModal.sessionId props) (EditorModal.text s)
       (EditorModal.instruction s) (EditorModal.history s)).

Definition after_apply (be : Backend) (props : EditorModal.Props) (s : EditorModal.State)
    : Outcome EditorModal.State unit :=
  complete be (EditorModal.applyEdit props s) s.

End Pipeline.

(** ** Backends for the worked examples of failures *)

Module Scenario.

(** No article in the past week. *)
Definition empty_feed : Backend := fun rq =>
  match body rq as b return option (reply b) with
  | Aggregate _ => Some []
  | other => Sample.backend (POST (url rq) other)
  end.

(** The articles arrive, the highlights request fails. *)
Definition highlights_down : Backend := fun rq =>
  match body rq as b return option (reply b) with
  | Highlights _ _ => None
  | other => Sample.backend (POST (url rq) other)
  end.

(** Every request fails. *)
Definition offline : Backend := fun _ => None.

(** The feed lists one article twice. *)
Definition repeated_feed : Backend := fun rq =>
  match body rq as b return option (reply b) with
  | Aggregate _ => Some (Sample.article <$> [1; 2; 3; 4; 5; 5])
  | other => Sample.backend (POST (url rq) other)
  end.

(** The six entries are fetched; the user unchecks the repeated article
    and checks it again. *)
Definition repeated_story : list Session.Event :=
  [Session.User (Session.Click Page.GetHighlightsButton);
   Session.Answer 0 repeated_feed; Session.Answer 0 repeated_feed;
   Session.User (Session.ToggleArticle (Sample.link_of 5));
   Session.User (Session.ToggleArticle (Sample.link_of 5))].

(** A store whose entry for session s1 is not JSON. *)
Definition corrupt_store : gmap string string := {[ "mem_s1" := "undefined" ]}.

End Scenario.

(** ** What the modal finds in the store *)

Module Storage.

(** A JSON text starts with white space or with the first character of a
    value (an object, an array, a string, a number, [true], [false] or
    [null]); [JSON.parse] throws on every other text, the empty one
    included. *)
Definition starts_json_text (c : ascii) : bool :=
  let n := N_of_ascii c in
  ((n =? 9) || (n =? 10) || (n =? 13) || (n =? 32)
   || (n =? 34) || (n =? 45) || ((48 <=? n) && (n <=? 57))
   || (n =? 91) || (n =? 123)
   || (n =? 102) || (n =? 110) || (n =? 116))%N.

Definition rejected (saved : string) : bool :=
  match saved with
  | String c _ => negb (starts_json_text c)
  | EmptyString => true
  end.

(** The history a store holds for the modal: the one whose text was
    saved; the empty one when nothing was saved or the saved text is
    rejected. *)
Inductive saved_history (props : EditorModal.Props) (localStorage : gmap string string)
    : list Turn.t -> Prop :=
| saved_nothing :
    localStorage !! EditorModal.storage_key props = None ->
    saved_history props localStorage []
| saved_rejected (saved : string) :
    localStorage !! EditorModal.storage_key props = Some saved ->
    rejected saved = true ->
    saved_history props localStorage []
| saved_turns (h : list Turn.t) :
    localStorage !! EditorModal.storage_key props = Some (JSON.stringify h) ->
    saved_history props localStorage h.

End Storage.

(** ** Further invariants of a session *)

Module Invariants.
Import Page Session.

(** Every selected link is the link of a fetched article. *)
Definition selection_ok (p : State) : Prop :=
  selectedArticles p ⊆ Article.link <$> articles p.

(** [I] holds of the page and every suspended handler keeps it. *)
Definition good_for (I : State -> Prop) (w : World) : Prop :=
  I (page w) /\ Forall (status_safe I) (pending w).

(** Proves [safe selection_ok acc t] for a handler [t]. *)
Ltac solve_selection :=
  repeat first
    [ progress cbn -[selection_ok]
    | case_bool_decide
    | case_match
    | match goal with |- _ /\ _ => split end
    | match goal with |- forall _, _ => intro end ];
  try done;
  unfold selection_ok in *; cbn in *;
  first [ assumption | reflexivity | by intros ? ?%elem_of_nil ].

(** The four operations that have a loading flag. *)
Inductive Operation : Type :=
| Fetch
| Summarize
| GenerateTweets
| GenerateNewsletter.

#[export] Instance Operation_eq_dec : EqDecision Operation.
Proof. solve_decision. Defined.

Definition flag (x : Operation) (p : State) : bool :=
  match x with
  | Fetch => loadingHighlights p
  | Summarize => loadingSummaries p
  | GenerateTweets => loadingTweets p
  | GenerateNewsletter => loadingNewsletter p
  end.

(** The operation a request belongs to. *)
Definition owner (rq : Request) : option Operation :=
  match body rq with
  | Aggregate _ | Highlights _ _ => Some Fetch
  | SummariesSelected _ => Some Summarize
  | Tweets _ _ => Some GenerateTweets
  | Newsletter _ _ _ => Some GenerateNewsletter
  | EditTweet _ _ _ _ _ _ | Edit _ _ _ _ | DownloadHtml _ _ => None
  end.

Definition status_owner {R : Type} (st : Status State R) : option Operation :=
  match st with
  | Waiting rq _ _ => owner rq
  | _ => None
  end.

Definition flags_kept (s s' : State) : Prop :=
  forall x, flag x s' = flag x s.

Definition flags_released (o : option Operation) (s s' : State) : Prop :=
  forall x, flag x s' = if bool_decide (o = Some x) then false else flag x s.

(** [disciplined o acc t]: the task [t], which works for operation [o],
    awaits only requests of [o], leaves every flag alone while it does,
    and when it ends has cleared the flag of [o] and no other. *)
Fixpoint disciplined {R : Type} (o : option Operation) (acc : State -> State)
    (t : Task State R) : Prop :=
  match t with
  | Return _ | Throw => forall s, flags_released o s (acc s)
  | SetState f k => disciplined o (f ∘ acc) k
  | Alert _ k | ConsoleError _ k => disciplined o acc k
  | Await rq k catch =>
      owner rq = o
      /\ (forall s, flags_kept s (acc s))
      /\ (forall data, disciplined o id (k data))
      /\ disciplined o id catch
  end.

Definition status_disciplined {R : Type} (st : Status State R) : Prop :=
  match st with
  | Waiting rq k catch =>
      (forall data, disciplined (owner rq) id (k data))
      /\ disciplined (owner rq) id catch
  | _ => True
  end.

(** How many handlers of operation [x] are suspended. *)
Definition outstanding (x : Operation) (pend : list (Status State unit)) : nat :=
  length (filter (fun st => status_owner st = Some x) pend).

Definition tidy (w : World) : Prop :=
  Forall status_disciplined (pending w)
  /\ forall x, outstanding x (pending w) = if flag x (page w) then 1 else 0.

(** Proves [disciplined o acc t] for the rest of a handler. *)
Ltac solve_disciplined :=
  repeat first
    [ progress cbn -[flags_kept flags_released]
    | case_bool_decide
    | case_match
    | match goal with |- _ /\ _ => split end
    | match goal with |- forall _, _ => intro end ];
  try done;
  try (unfold flags_kept, flags_released;
       let x := fresh "x" in intros x; destruct x; reflexivity).

End Invariants.

(** * Properties *)

Import Page Session.

(** ** Selection limit of [getHighlights] *)

(** C1, as stated, fails at the empty selection: with no article selected
    [getHighlights] raises nothing, sets its loading flag and sends the
    request (for an empty article list).  Through the markup the handler
    is not reached then, and nothing is raised either: the button is
    disabled and the click starts nothing. *)
Lemma getHighlights_empty_selection_is_sent :
  length (selectedArticles Sample.deselected) = 0
  /\ alerts_of (trace (call getHighlights Sample.deselected)) = []
  /\ requests_of (trace (call getHighlights Sample.deselected))
     = [POST "/summaries_selected" (SummariesSelected [])]
  /\ loadingSummaries Sample.deselected = false
  /\ loadingSummaries (live (call getHighlights Sample.deselected)) = true
  /\ click GetSummariesButton Sample.deselected = None.
Proof. repeat split; vm_compute; reflexivity. Qed.

(** C1 (amended).  With six or more articles selected [getHighlights]
    sends nothing, shows the selection-limit notice and leaves the state
    as it was.  With five or fewer, the empty selection included, it sets
    [loadingSummaries] and sends the selected articles to
    [/summaries_selected].  The empty selection is kept out by the Get
    Summaries button alone, which is disabled then. *)
Theorem getHighlights_selection_limit (p : State) :
  (5 < length (selectedArticles p) ->
     call getHighlights p
     = {| live := p;
          trace := [Alerted (selection_limit_message (length (selectedArticles p)))];
          status := Finished tt |})
  /\ (length (selectedArticles p) <= 5 ->
     live (call getHighlights p) = setLoadingSummaries true p
     /\ trace (call getHighlights p) = [Sent (summaries_request p)]
     /\ is_waiting (status (call getHighlights p)) = true)
  /\ (length (selectedArticles p) = 0 -> click GetSummariesButton p = None).
Proof.
  unfold call, getHighlights. split; [|split].
  - intros Hmany. rewrite bool_decide_eq_true_2 by done. reflexivity.
  - intros Hfew. rewrite bool_decide_eq_false_2 by lia. repeat split.
  - intros Hnone. unfold click, disabled.
    rewrite (bool_decide_eq_true_2 _ Hnone), orb_true_r, andb_false_r. reflexivity.
Qed.

Lemma getHighlights_selection_limit_witness :
  alerts_of (trace (call getHighlights Sample.fetched))
  = ["Please select 5 or fewer articles for summarization. You currently have 6 articles selected."]
  /\ requests_of (trace (call getHighlights Sample.fetched)) = []
  /\ live (call getHighlights Sample.fetched) = Sample.fetched
  /\ is_waiting (status (call getHighlights Sample.on_last_page)) = true
  /\ click GetSummariesButton Sample.deselected = None.
Proof.
  destruct (getHighlights_selection_limit Sample.fetched) as (Hmany & _ & _).
  destruct (getHighlights_selection_limit Sample.on_last_page) as (_ & Hfew & _).
  destruct (getHighlights_selection_limit Sample.deselected) as (_ & _ & Hnone).
  rewrite Hmany by (vm_compute; lia).
  split; [reflexivity |]. split; [reflexivity |]. split; [reflexivity |].
  split; [apply Hfew; vm_compute; lia | apply Hnone; reflexivity].
Defined.

(** The scenario of six fetched articles: all of them are selected, Get
    Summaries answers with the notice and sends nothing; once the user has
    deselected one article the request goes out, and its answer switches
    the page to the summaries. *)
Example six_articles_scenario :
  alerts_of ∘ log
    <$> run [User (Click GetHighlightsButton); Sample.answer; Sample.answer;
             User (Click GetSummariesButton)] (start "s1")
  = Some ["Please select 5 or fewer articles for summarization. You currently have 6 articles selected."]
  /\ length ∘ pending
       <$> run [User (Click GetHighlightsButton); Sample.answer; Sample.answer;
                User (Click GetSummariesButton)] (start "s1")
     = Some 0
  /\ length ∘ pending
       <$> run [User (Click GetHighlightsButton); Sample.answer; Sample.answer;
                User (Click GetSummariesButton);
                User (ToggleArticle (Sample.link_of 3));
                User (Click GetSummariesButton)] (start "s1")
     = Some 1
  /\ (fun p => (summariesMode p, length (highlights p)))
       <$> Sample.page_after
             [User (Click GetHighlightsButton); Sample.answer; Sample.answer;
              User (Click GetSummariesButton);
              User (ToggleArticle (Sample.link_of 3));
              User (Click GetSummariesButton); Sample.answer]
     = Some (true, 5).
Proof. repeat split; vm_compute; reflexivity. Qed.

(** ** Accepting and rejecting a proposed tweet *)


(** A card that shows the suggestion is the card of the tweet being
    edited, and a non-empty proposal is pending. *)
Lemma suggestion_open (tweet : Tweet.t) (p : State) :
  TweetCards.suggestion tweet p = true ->
  currentEditingTweetId p = Some (Tweet.id tweet)
  /\ truthy_opt (pendingTweetUpdate p) = true.
Proof.
  unfold TweetCards.suggestion, isEditing. intros [Hopen Hturn]%andb_true_iff.
  split; [by apply bool_decide_eq_true in Hopen |].
  apply existsb_exists in Hturn as ([i msg] & _ & Hmsg).
  unfold TweetCards.hasUpdateInMessage in Hmsg.
  by apply andb_true_iff in Hmsg as [[Hpending _]%andb_true_iff _].
Qed.

(** Without a non-empty pending proposal no card shows a suggestion. *)
Lemma no_proposal_no_suggestion (tweet : Tweet.t) (p : State) :
  truthy_opt (pendingTweetUpdate p) = false ->
  TweetCards.suggestion tweet p = false.
Proof.
  intros Hnone. apply not_true_iff_false. intros [_ Hpending]%suggestion_open.
  congruence.
Qed.





(** C10.  Without a tweet open in the editor, or without a pending
    proposal, [acceptTweetUpdate] does nothing at all: no request, and the
    state, tweets and proposal slot included, is the one it was called in.
    The handler's test is JavaScript truthiness, so the empty string counts
    as absent like [null]. *)
Theorem acceptTweetUpdate_noop (p : State) :
  truthy_opt (currentEditingTweetId p) = false
  \/ truthy_opt (pendingTweetUpdate p) = false ->
  call acceptTweetUpdate p = {| live := p; trace := []; status := Finished tt |}.
Proof.
  unfold call, acceptTweetUpdate, truthy_opt.
  destruct (currentEditingTweetId p) as [editing|], (pendingTweetUpdate p) as [pending|];
    intros [H | H]; try discriminate H; try reflexivity.
  - by rewrite H.
  - by rewrite H, orb_true_r.
Qed.

Lemma acceptTweetUpdate_noop_witness :
  call acceptTweetUpdate (setPendingTweetUpdate None Sample.editingA)
  = {| live := setPendingTweetUpdate None Sample.editingA; trace := [];
       status := Finished tt |}
  /\ call acceptTweetUpdate (setCurrentEditingTweetId None Sample.editingA)
     = {| live := setCurrentEditingTweetId None Sample.editingA; trace := [];
          status := Finished tt |}.
Proof.
  split.
  - apply (acceptTweetUpdate_noop (setPendingTweetUpdate None Sample.editingA)).
    right. reflexivity.
  - apply (acceptTweetUpdate_noop (setCurrentEditingTweetId None Sample.editingA)).
    left. reflexivity.
Defined.

(** The request [sendTweetMessage] sends depends on the state only through
    the fields it reads. *)
Lemma sendTweetMessage_reads (message : string) (p q : State) :
  currentEditingTweetId q = currentEditingTweetId p ->
  tweets q = tweets p ->
  highlights q = highlights p ->
  tweetConversations q = tweetConversations p ->
  sessionId q = sessionId p ->
  apiBase q = apiBase p ->
  trace (exec (sendTweetMessage message q) q) = trace (exec (sendTweetMessage message p) p).
Proof.
  intros He Ht Hh Hc Hs Ha. unfold sendTweetMessage. rewrite He, Ht.
  destruct (currentEditingTweetId p) as [editing|]; [| reflexivity].
  destruct (truthy editing); [| reflexivity]. cbn [negb].
  destruct (List.find _ (tweets p)) as [currentTweet|]; [| reflexivity].
  cbn. unfold edit_tweet_request. by rewrite Hh, Hc, Hs, Ha.
Qed.

(** C9.  [rejectTweetUpdate] sends nothing and changes the proposal slot
    only: tweets, summary, newsletter and every conversation are as before.
    A [sendTweetMessage] that follows therefore sends the request it would
    have sent before the rejection, and the [conversation_history] of that
    request is the whole conversation stored for the tweet. *)
Theorem rejectTweetUpdate_frame (p : State) (message : string) :
  call rejectTweetUpdate p
  = {| live := setPendingTweetUpdate None p; trace := []; status := Finished tt |}
  /\ pendingTweetUpdate (live (call rejectTweetUpdate p)) = None
  /\ tweets (live (call rejectTweetUpdate p)) = tweets p
  /\ summary (live (call rejectTweetUpdate p)) = summary p
  /\ newsletterHtml (live (call rejectTweetUpdate p)) = newsletterHtml p
  /\ tweetConversations (live (call rejectTweetUpdate p)) = tweetConversations p
  /\ trace (call (sendTweetMessage message) (live (call rejectTweetUpdate p)))
     = trace (call (sendTweetMessage message) p)
  /\ forall rq : Request,
       Sent rq ∈ trace (call (sendTweetMessage message) (live (call rejectTweetUpdate p))) ->
       exists currentTweet : Tweet.t,
         currentTweet ∈ tweets p
         /\ currentEditingTweetId p = Some (Tweet.id currentTweet)
         /\ rq = edit_tweet_request message currentTweet p
         /\ exists sid tid cur orig,
              body rq = EditTweet sid tid cur orig message
                          (default [] (tweetConversations p !! Tweet.id currentTweet)).
Proof.
  split; [reflexivity |]. do 5 (split; [reflexivity |]).
  assert (Hsame : trace (call (sendTweetMessage message) (live (call rejectTweetUpdate p)))
                  = trace (call (sendTweetMessage message) p))
    by (apply sendTweetMessage_reads; reflexivity).
  split; [exact Hsame |].
  intros rq. rewrite Hsame. unfold call, sendTweetMessage.
  destruct (currentEditingTweetId p) as [editing|] eqn:Hediting; [| by intros ?%elem_of_nil].
  destruct (truthy editing); [| by intros ?%elem_of_nil]. cbn [negb].
  destruct (List.find _ (tweets p)) as [currentTweet|] eqn:Hfind; [| by intros ?%elem_of_nil].
  cbn. intros Hrq%list_elem_of_singleton. injection Hrq as ->.
  apply find_some in Hfind as [Hin Hid%bool_decide_eq_true].
  exists currentTweet. split; [by apply list_elem_of_In |].
  split; [by rewrite Hid |]. split; [reflexivity |].
  unfold edit_tweet_request. cbn. eauto.
Qed.

Lemma rejectTweetUpdate_frame_witness :
  pendingTweetUpdate Sample.editingA = Some "Launch day!"
  /\ pendingTweetUpdate (live (call rejectTweetUpdate Sample.editingA)) = None
  /\ requests_of
       (trace (call (sendTweetMessage "shorter") (live (call rejectTweetUpdate Sample.editingA))))
     = [POST "/edit_tweet"
          (EditTweet "s1" "t1" "Big launch today" "Summary of Article 1" "shorter"
             [Sample.user "punchier"; Sample.assistant "Here you go."])].
Proof.
  destruct (rejectTweetUpdate_frame Sample.editingA "shorter")
    as (_ & Hcleared & _ & _ & _ & _ & Hsame & _).
  split; [reflexivity |]. split; [exact Hcleared |].
  rewrite Hsame. vm_compute. reflexivity.
Defined.

(** ** Reset *)

(** C3, as stated, fails: [resetSummaries] does not touch the inline
    editor.  The conversation stored for a tweet, the pending proposal and
    the id of the tweet being edited all survive the reset. *)
Lemma resetSummaries_keeps_editor_state :
  tweetConversations Sample.editingA !! "t1"
  = Some [Sample.user "punchier"; Sample.assistant "Here you go."]
  /\ tweetConversations (live (call resetSummaries Sample.editingA)) !! "t1"
     = Some [Sample.user "punchier"; Sample.assistant "Here you go."]
  /\ pendingTweetUpdate (live (call resetSummaries Sample.editingA)) = Some "Launch day!"
  /\ currentEditingTweetId (live (call resetSummaries Sample.editingA)) = Some "t1"
  /\ tweets (live (call resetSummaries Sample.editingA)) = [].
Proof. repeat split; vm_compute; reflexivity. Qed.

(** C3 (amended).  [resetSummaries] sends nothing and puts the pipeline
    back to its first view (only Get Highlights is offered): articles,
    highlights, tweets, newsletter, summary text, selection and cursor get
    their initial values and the paginated view is switched on again.
    Conversations, the pending proposal, the tweet being edited, the
    loading flags, the feed selection and the modal's fields are left as
    they are. *)
Theorem resetSummaries_clears_pipeline (p : State) :
  call resetSummaries p
  = {| live :=
         {| sessionId := sessionId p; apiBase := apiBase p; sources := sources p;
            articles := []; summary := ""; tweets := []; newsletterHtml := "";
            loading := loading p; loadingHighlights := loadingHighlights p;
            loadingSummaries := loadingSummaries p; loadingTweets := loadingTweets p;
            loadingNewsletter := loadingNewsletter p;
            summariesMode := false; pageIndex := 0; highlights := [];
            selectedArticles := []; isPaginated := true;
            currentEditingTweetId := currentEditingTweetId p;
            tweetConversations := tweetConversations p;
            pendingTweetUpdate := pendingTweetUpdate p;
            editorOpen := editorOpen p; editorTitle := editorTitle p;
            editorText := editorText p; editTarget := editTarget p |};
       trace := []; status := Finished tt |}
  /\ rendered GetHighlightsButton (live (call resetSummaries p)) = true
  /\ rendered GetSummariesButton (live (call resetSummaries p)) = false
  /\ rendered NextButton (live (call resetSummaries p)) = false
  /\ disabled GenerateTweetsButton (live (call resetSummaries p)) = true
  /\ disabled GenerateNewsletterButton (live (call resetSummaries p)) = true.
Proof. repeat split. Qed.

(** ** Switching the tweet being edited *)

(** C8, as stated, fails in its last part: the page has two editors, and
    [openTweetEditor] knows of one.  In a session that generated tweets
    and a newsletter, the user opens the first tweet in the inline editor
    and gets a suggestion; with the suggestion pending, the newsletter's
    Edit with AI opens the modal editor on the newsletter.  A tweet and
    the newsletter are then both being edited.  [openTweetEditor] on the
    second tweet, called in that state, leaves the modal open on the
    newsletter. *)
Lemma inline_and_modal_editor_both_open :
  Markup.offered_run Story.both_editors (start "s1") = true
  /\ (fun p => (currentEditingTweetId p, pendingTweetUpdate p, editorOpen p, editTarget p))
       <$> Sample.page_after Story.both_editors
     = Some (Some "tweet-of-https://example.org/a1", Some "Re: Summary of Article 1",
             true, TargetNewsletter)
  /\ (fun p => EditorModal.open (editorModal p)) <$> Sample.page_after Story.both_editors
     = Some true
  /\ (fun p =>
        from_option
          (fun tweet =>
             let q := live (call (openTweetEditor tweet) p) in
             (currentEditingTweetId q, editorOpen q, editTarget q))
          (None, false, TargetSummary) (tweets p !! 1))
       <$> Sample.page_after Story.both_editors
     = Some (Some "tweet-of-https://example.org/a2", true, TargetNewsletter).
Proof. repeat split; vm_compute; reflexivity. Qed.

(** C8 (amended).  When tweet A is open in the inline editor with a
    proposal pending and the editor is opened on another tweet B, the
    proposal is dropped uncommitted (the tweets are untouched), A is no
    longer the tweet being edited and B is the only tweet that is: the
    cards that show the inline editor are those of B, and none shows a
    suggestion.  No request is sent.  The modal editor is left as it is:
    whether it is open, and on which target, does not change. *)
Theorem openTweetEditor_switches_target (p : State) (a proposal : string) (tweetB : Tweet.t) :
  currentEditingTweetId p = Some a ->
  pendingTweetUpdate p = Some proposal ->
  Tweet.id tweetB ≠ a ->
  call (openTweetEditor tweetB) p
  = {| live := setPendingTweetUpdate None
                 (setCurrentEditingTweetId (Some (Tweet.id tweetB)) p);
       trace := []; status := Finished tt |}
  /\ pendingTweetUpdate (live (call (openTweetEditor tweetB) p)) = None
  /\ tweets (live (call (openTweetEditor tweetB) p)) = tweets p
  /\ isEditing a (live (call (openTweetEditor tweetB) p)) = false
  /\ (forall x : string,
        isEditing x (live (call (openTweetEditor tweetB) p)) = true <-> x = Tweet.id tweetB)
  /\ (forall tweet : Tweet.t,
        TweetCards.rendered TweetCards.Close tweet (live (call (openTweetEditor tweetB) p))
        = true
        <-> Tweet.id tweet = Tweet.id tweetB)
  /\ (forall tweet : Tweet.t,
        TweetCards.suggestion tweet (live (call (openTweetEditor tweetB) p)) = false)
  /\ editorOpen (live (call (openTweetEditor tweetB) p)) = editorOpen p
  /\ editTarget (live (call (openTweetEditor tweetB) p)) = editTarget p
  /\ editorText (live (call (openTweetEditor tweetB) p)) = editorText p.
Proof.
  intros Hediting Hpending Hother.
  assert (Hcall : call (openTweetEditor tweetB) p
                  = {| live := setPendingTweetUpdate None
                                 (setCurrentEditingTweetId (Some (Tweet.id tweetB)) p);
                       trace := []; status := Finished tt |}).
  { unfold call, openTweetEditor. rewrite Hediting.
    rewrite bool_decide_eq_false_2 by congruence. reflexivity. }
  rewrite Hcall. cbn [live]. unfold isEditing.
  split; [reflexivity |]. split; [reflexivity |]. split; [reflexivity |].
  split; [apply bool_decide_eq_false_2; cbn; congruence |].
  split; [intros x; rewrite bool_decide_eq_true; cbn; split; congruence |].
  split; [intros tweet; cbn; unfold isEditing; rewrite bool_decide_eq_true; cbn;
          split; congruence |].
  split; [intros tweet; by apply no_proposal_no_suggestion |].
  by repeat split.
Qed.

Lemma openTweetEditor_switches_target_witness :
  pendingTweetUpdate (live (call (openTweetEditor Sample.tweetB) Sample.editingA)) = None
  /\ tweets (live (call (openTweetEditor Sample.tweetB) Sample.editingA))
     = [Sample.tweetA; Sample.tweetB]
  /\ isEditing "t1" (live (call (openTweetEditor Sample.tweetB) Sample.editingA)) = false
  /\ isEditing "t2" (live (call (openTweetEditor Sample.tweetB) Sample.editingA)) = true.
Proof.
  destruct (openTweetEditor_switches_target Sample.editingA "t1" "Launch day!" Sample.tweetB)
    as (_ & Hdropped & Htweets & HA & Hsole & _);
    [reflexivity | reflexivity | vm_compute; discriminate |].
  split; [exact Hdropped |]. split; [exact Htweets |]. split; [exact HA |].
  apply Hsole. reflexivity.
Defined.

(** ** Late answers to [sendTweetMessage] *)

(** C5, as stated, fails: the answer to [sendTweetMessage] is applied
    without looking at the state it arrives in.  In a session that
    generated two tweets, the user opens the editor on the first, sends a
    message and, before the answer is there, opens the editor on the
    second.  The late answer fills the proposal slot and rewrites the
    first tweet's conversation.  When the second tweet has a conversation
    of its own that ends with an answer, its card shows the text proposed
    for the first tweet as its suggestion, and Accept commits that text to
    the second tweet.  A reset in between does not stop the answer
    either.  Every user event of these sessions is one the markup
    offers. *)
Lemma stale_edit_reply_is_applied :
  currentEditingTweetId <$> Sample.page_after Sample.switch_story
  = Some (Some "tweet-of-https://example.org/a2")
  /\ pendingTweetUpdate <$> Sample.page_after Sample.switch_story = Some None
  /\ (fun p => tweetConversations p !! "tweet-of-https://example.org/a1")
       <$> Sample.page_after Sample.switch_story
     = Some None
  /\ currentEditingTweetId <$> Sample.page_after (Sample.switch_story ++ [Sample.answer])
     = Some (Some "tweet-of-https://example.org/a2")
  /\ pendingTweetUpdate <$> Sample.page_after (Sample.switch_story ++ [Sample.answer])
     = Some (Some "Launch day")
  /\ (fun p => tweetConversations p !! "tweet-of-https://example.org/a1")
       <$> Sample.page_after (Sample.switch_story ++ [Sample.answer])
     = Some (Some [Sample.user "shorter"; Sample.assistant "Shortened."])
  /\ Markup.offered_run (Sample.switch_story ++ [Sample.answer]) (start "s1") = true
  /\ Markup.offered_run (Story.stale ++ [Story.reply; User TweetAccept]) (start "s1") = true
  /\ (fun p => (currentEditingTweetId p, pendingTweetUpdate p, Tweet.content <$> tweets p))
       <$> Sample.page_after Story.stale
     = Some (Some "tweet-of-https://example.org/a2", None,
             ["Summary of Article 1"; "Summary of Article 2"])
  /\ (fun p => (currentEditingTweetId p, pendingTweetUpdate p, Tweet.content <$> tweets p))
       <$> Sample.page_after (Story.stale ++ [Story.reply])
     = Some (Some "tweet-of-https://example.org/a2", Some "Re: Summary of Article 1",
             ["Summary of Article 1"; "Summary of Article 2"])
  /\ (fun p => (pendingTweetUpdate p, Tweet.content <$> tweets p))
       <$> Sample.page_after (Story.stale ++ [Story.reply; User TweetAccept])
     = Some (None, ["Summary of Article 1"; "Re: Summary of Article 1"])
  /\ Markup.offered_run (Story.reset_meanwhile ++ [Story.reply]) (start "s1") = true
  /\ pendingTweetUpdate <$> Sample.page_after Story.reset_meanwhile = Some None
  /\ pendingTweetUpdate <$> Sample.page_after (Story.reset_meanwhile ++ [Story.reply])
     = Some (Some "Re: Summary of Article 1").
Proof. repeat split; vm_compute; reflexivity. Qed.

(** C5 (amended).  [sendTweetMessage], called with a tweet open in the
    editor, changes nothing and sends one request.  Its answer is applied
    to whatever state [s] it arrives in, with no test of the tweet then
    being edited: the proposal slot gets the returned text and the
    returned history is stored under the id of the tweet found at call
    time.  The tweets, the tweet being edited and the conversations of
    other tweets are left as they are in [s]. *)
Theorem sendTweetMessage_reply_applied_unconditionally
    (p s : State) (message editing : string) (currentTweet : Tweet.t)
    (be : Backend) (data : EditTweetData.t) :
  currentEditingTweetId p = Some editing ->
  truthy editing = true ->
  List.find (fun t => bool_decide (Tweet.id t = editing)) (tweets p) = Some currentTweet ->
  be (edit_tweet_request message currentTweet p) = Some data ->
  live (call (sendTweetMessage message) p) = p
  /\ trace (call (sendTweetMessage message) p)
     = [Sent (edit_tweet_request message currentTweet p)]
  /\ settle be (status (call (sendTweetMessage message) p)) s
     = {| live :=
            setTweetConversations
              (<[Tweet.id currentTweet := EditTweetData.conversation_history data]>
                 (tweetConversations s))
              (setPendingTweetUpdate (Some (EditTweetData.new_tweet data)) s);
          trace := [];
          status := Finished (Some (EditTweetData.ai_response data)) |}
  /\ tweets (live (settle be (status (call (sendTweetMessage message) p)) s)) = tweets s
  /\ currentEditingTweetId (live (settle be (status (call (sendTweetMessage message) p)) s))
     = currentEditingTweetId s
  /\ forall other : string,
       other ≠ Tweet.id currentTweet ->
       tweetConversations (live (settle be (status (call (sendTweetMessage message) p)) s))
         !! other
       = tweetConversations s !! other.
Proof.
  intros Hediting Hid Hfind Hbe.
  unfold call, sendTweetMessage. rewrite Hediting, Hid, Hfind.
  cbn [negb]. cbn -[edit_tweet_request]. rewrite Hbe.
  split; [reflexivity |]. split; [reflexivity |]. split; [reflexivity |].
  split; [reflexivity |]. split; [reflexivity |].
  intros other Hother. cbn. by rewrite lookup_insert_ne.
Qed.

Lemma sendTweetMessage_reply_applied_unconditionally_witness :
  pendingTweetUpdate
    (live (settle Sample.backend (status (call (sendTweetMessage "shorter") Sample.editingA_idle))
             Sample.switched))
  = Some "Launch day"
  /\ currentEditingTweetId
       (live (settle Sample.backend
                (status (call (sendTweetMessage "shorter") Sample.editingA_idle))
                Sample.switched))
     = Some "t2".
Proof.
  destruct (sendTweetMessage_reply_applied_unconditionally
              Sample.editingA_idle Sample.switched "shorter" "t1" Sample.tweetA
              Sample.backend
              {| EditTweetData.new_tweet := "Launch day";
                 EditTweetData.conversation_history :=
                   [Sample.user "punchier"; Sample.assistant "Here you go.";
                    Sample.user "shorter"; Sample.assistant "Shortened."];
                 EditTweetData.ai_response := "Shortened." |})
    as (_ & _ & Hsettled & _ & Hediting & _);
    [reflexivity | reflexivity | reflexivity | reflexivity |].
  split; [rewrite Hsettled; reflexivity | rewrite Hediting; reflexivity].
Defined.

(** ** An invariant of the session *)

Lemma safe_exec {S R : Type} (I : S -> Prop) (t : Task S R) :
  forall (acc : S -> S) (s : S),
    safe I acc t -> I s ->
    I (live (exec t (acc s))) /\ status_safe I (status (exec t (acc s))).
Proof.
  induction t as [v| |f k IH|msg k IH|msg k IH|rq k _ catch _]; intros acc s Hsafe Hs; cbn in *.
  - split; [by apply Hsafe | done].
  - split; [by apply Hsafe | done].
  - apply (IH (f ∘ acc) s Hsafe Hs).
  - apply (IH acc s Hsafe Hs).
  - apply (IH acc s Hsafe Hs).
  - destruct Hsafe as (Hacc & Hk & Hcatch). split; [by apply Hacc | done].
Qed.

Lemma safe_settle {S R : Type} (I : S -> Prop) (be : Backend) (st : Status S R) (s : S) :
  status_safe I st -> I s ->
  I (live (settle be st s)) /\ status_safe I (status (settle be st s)).
Proof.
  intros Hst Hs. destruct st as [v| |rq k catch]; cbn; [done | done |].
  destruct Hst as [Hk Hcatch].
  destruct (be rq) as [data|]; by apply (safe_exec I _ id s).
Qed.

Lemma Forall_suspended (st : Status State unit) :
  status_safe cursor_ok st -> Forall (status_safe cursor_ok) (suspended st).
Proof. intros Hst. unfold suspended. destruct (is_waiting st); by constructor. Qed.


Lemma cursor_ok_zero (q : State) : pageIndex q = 0%Z -> cursor_ok q.
Proof. unfold cursor_ok. intros ->. split; [done | by left]. Qed.

Lemma fetchAndSummarize_safe (p : State) : safe cursor_ok id (fetchAndSummarize p).
Proof. unfold fetchAndSummarize. solve_safe. Qed.

Lemma getHighlights_safe (p : State) : safe cursor_ok id (getHighlights p).
Proof. unfold getHighlights. solve_safe. Qed.

Lemma resetSummaries_safe (p : State) : safe cursor_ok id (resetSummaries p).
Proof. unfold resetSummaries. solve_safe. Qed.

Lemma makeTweets_safe (p : State) : safe cursor_ok id (makeTweets p).
Proof. unfold makeTweets. solve_safe. Qed.

Lemma makeNewsletter_safe (p : State) : safe cursor_ok id (makeNewsletter p).
Proof. unfold makeNewsletter. solve_safe. Qed.

Lemma sendTweetMessage_safe (message : string) (p : State) :
  safe cursor_ok id (forget (sendTweetMessage message p)).
Proof. unfold forget, sendTweetMessage. solve_safe. Qed.

Lemma acceptTweetUpdate_safe (p : State) : safe cursor_ok id (acceptTweetUpdate p).
Proof. unfold acceptTweetUpdate. solve_safe. Qed.

Lemma openEditor_safe (target : EditTarget) (p : State) :
  safe cursor_ok id (openEditor target p).
Proof. unfold openEditor. destruct target; solve_safe. Qed.

Lemma onEditorDone_safe (newText : string) (p : State) :
  safe cursor_ok id (onEditorDone newText p;; setState (setEditorOpen false)).
Proof. unfold onEditorDone. solve_safe. Qed.

Lemma openTweetEditor_safe (tweet : Tweet.t) (p : State) :
  safe cursor_ok id (openTweetEditor tweet p).
Proof. unfold openTweetEditor. solve_safe. Qed.

(** The cursor controls, clicked in the render that shows them. *)
Lemma cursor_click_ok (b : Button) (p : State) :
  b = PreviousButton \/ b = NextButton ->
  rendered b p = true -> cursor_ok p ->
  cursor_ok (live (exec (onClick b p) p)) /\ status_safe cursor_ok (status (exec (onClick b p) p)).
Proof.
  intros Hb Hrendered [Hlow Hhigh].
  assert (Hlen : 1 < length (highlights p)).
  { destruct Hb as [-> | ->]; cbn in Hrendered;
      apply andb_true_iff in Hrendered as [_ Hlen%bool_decide_eq_true]; done. }
  destruct Hb as [-> | ->]; (split; [| done]); unfold cursor_ok; cbn; lia.
Qed.

Lemma handler_safe (e : UserEvent) (p : State) (t : Task State unit) :
  handler e p = Some t -> cursor_ok p ->
  cursor_ok (live (exec t p)) /\ status_safe cursor_ok (status (exec t p)).
Proof.
  intros Hhandler Hp.
  assert (Hid : forall t' : Task State unit,
             safe cursor_ok id t' ->
             cursor_ok (live (exec t' p)) /\ status_safe cursor_ok (status (exec t' p)))
    by (intros t' Ht'; by apply (safe_exec cursor_ok t' id p)).
  destruct e as [b| | | | | | | | | | | | | |];
    unfold handler in Hhandler; cbv beta iota zeta in Hhandler.
  - unfold click in Hhandler.
    destruct (rendered b p && negb (disabled b p)) eqn:Hshown; [| discriminate].
    injection Hhandler as <-. apply andb_true_iff in Hshown as [Hrendered _].
    destruct b.
    + apply Hid, fetchAndSummarize_safe.
    + apply Hid, resetSummaries_safe.
    + apply Hid, getHighlights_safe.
    + apply Hid, makeTweets_safe.
    + apply Hid, makeNewsletter_safe.
    + apply cursor_click_ok; auto.
    + apply cursor_click_ok; auto.
  - case_match; [| discriminate]. injection Hhandler as <-. apply Hid. solve_safe.
  - case_match; [| discriminate]. injection Hhandler as <-. apply Hid. solve_safe.
  - case_match; [| discriminate]. injection Hhandler as <-. apply Hid. solve_safe.
  - case_match; [| discriminate]. injection Hhandler as <-. apply Hid. solve_safe.
  - injection Hhandler as <-. apply Hid. solve_safe.
  - case_match; [| discriminate]. injection Hhandler as <-. apply Hid, openEditor_safe.
  - case_match; [| discriminate]. injection Hhandler as <-. apply Hid.
    unfold download. solve_safe.
  - case_match; [| discriminate]. injection Hhandler as <-. apply Hid, onEditorDone_safe.
  - case_match; [| discriminate]. injection Hhandler as <-. apply Hid. solve_safe.
  - destruct (tweets p !! idx) as [tweet|]; [| discriminate].
    injection Hhandler as <-. apply Hid, openTweetEditor_safe.
  - case_match; [| discriminate]. injection Hhandler as <-. apply Hid, sendTweetMessage_safe.
  - case_match; [| discriminate]. injection Hhandler as <-. apply Hid, acceptTweetUpdate_safe.
  - case_match; [| discriminate]. injection Hhandler as <-. apply Hid. solve_safe.
  - case_match; [| discriminate]. injection Hhandler as <-. apply Hid. solve_safe.
Qed.

Lemma step_good (ev : Event) (w w' : World) : step ev w = Some w' -> good w -> good w'.
Proof.
  intros Hstep [Hpage Hpending]. destruct ev as [e | i be]; cbn in Hstep.
  - destruct (handler e (page w)) as [t|] eqn:Hhandler; [| discriminate].
    injection Hstep as <-.
    destruct (handler_safe e (page w) t Hhandler Hpage) as [Hlive Hstatus].
    split; [exact Hlive |]. cbn. apply Forall_app. split; [done | by apply Forall_suspended].
  - destruct (pending w !! i) as [st|] eqn:Hi; [| discriminate].
    injection Hstep as <-.
    assert (Hst : status_safe cursor_ok st) by (eapply Forall_lookup_1; eauto).
    destruct (safe_settle cursor_ok be st (page w) Hst Hpage) as [Hlive Hstatus].
    split; [exact Hlive |]. cbn. apply Forall_app.
    split; [by apply Forall_delete | by apply Forall_suspended].
Qed.

Lemma run_good (evs : list Event) : forall w w' : World,
  run evs w = Some w' -> good w -> good w'.
Proof.
  induction evs as [|ev evs IH]; intros w w' Hrun Hw; cbn in Hrun.
  - by injection Hrun as <-.
  - destruct (step ev w) as [w1|] eqn:Hstep; [| discriminate].
    apply (IH w1 w' Hrun). by apply (step_good ev w).
Qed.

Lemma start_good (sid : string) : good (start sid).
Proof. split; [by apply cursor_ok_zero | constructor]. Qed.

Lemma cursor_ok_reachable (sid : string) (evs : list Event) (w : World) :
  run evs (start sid) = Some w -> cursor_ok (page w).
Proof. intros Hrun. by apply (run_good evs (start sid) w Hrun (start_good sid)). Qed.

(** ** The cursor over the highlights *)

(** C6, as stated, fails: replacing the highlights does not clamp the
    cursor, it sets it to 0.  The session of [before_replacement_story]
    shows five highlights with the cursor on index 4 when the answer with
    two highlights arrives; the cursor is then on index 0, not 1. *)
Lemma replaced_highlights_cursor_is_zero :
  length ∘ highlights <$> Sample.page_after Sample.before_replacement_story = Some 5
  /\ pageIndex <$> Sample.page_after Sample.before_replacement_story = Some 4%Z
  /\ length ∘ highlights
       <$> Sample.page_after (Sample.before_replacement_story ++ [Sample.answer])
     = Some 2
  /\ pageIndex <$> Sample.page_after (Sample.before_replacement_story ++ [Sample.answer])
     = Some 0%Z
  /\ pageIndex (live (complete Sample.backend (getHighlights Sample.on_last_page)
                        Sample.on_last_page)) = 0%Z.
Proof. repeat split; vm_compute; reflexivity. Qed.

(** C6 (amended).  The highlights are replaced in two places, and both set
    the cursor to 0: the answer to [getHighlights], applied to whatever
    state [s] it arrives in, stores the returned list (the empty list when
    the answer has none), and [resetSummaries] stores the empty list.  In
    every state [page w] a session can reach, the cursor is on a highlight
    (or on 0 when there is none), and where the pagination controls are in
    the markup, Previous moves it to [max 0 (i - 1)] and Next to
    [min (length - 1) (i + 1)], both again on a highlight. *)
Theorem highlights_replaced_cursor_reset
    (p s : State) (be : Backend) (items : option (list Highlight.t))
    (sid : string) (evs : list Event) (w : World) :
  length (selectedArticles p) <= 5 ->
  be (summaries_request p) = Some items ->
  run evs (start sid) = Some w ->
  (highlights (live (settle be (status (call getHighlights p)) s)) = default [] items
   /\ pageIndex (live (settle be (status (call getHighlights p)) s)) = 0%Z)
  /\ (highlights (live (call resetSummaries s)) = []
      /\ pageIndex (live (call resetSummaries s)) = 0%Z)
  /\ cursor_ok (page w)
  /\ (rendered PreviousButton (page w) = true ->
      pageIndex (live (call (onClick PreviousButton) (page w)))
      = Z.max 0 (pageIndex (page w) - 1)
      /\ pageIndex (live (call (onClick NextButton) (page w)))
         = Z.min (Z.of_nat (length (highlights (page w))) - 1) (pageIndex (page w) + 1)
      /\ (0 <= pageIndex (live (call (onClick PreviousButton) (page w)))
          < Z.of_nat (length (highlights (page w))))%Z
      /\ (0 <= pageIndex (live (call (onClick NextButton) (page w)))
          < Z.of_nat (length (highlights (page w))))%Z).
Proof.
  intros Hfew Hbe Hrun. split; [| split; [| split]].
  - unfold call, getHighlights. rewrite bool_decide_eq_false_2 by lia.
    cbn -[summaries_request]. rewrite Hbe. split; reflexivity.
  - split; reflexivity.
  - by apply (cursor_ok_reachable sid evs).
  - intros Hrendered.
    destruct (cursor_ok_reachable sid evs w Hrun) as [Hlow Hhigh].
    cbn in Hrendered.
    apply andb_true_iff in Hrendered as [_ Hlen%bool_decide_eq_true].
    cbn. lia.
Qed.

Lemma highlights_replaced_cursor_reset_witness :
  highlights (live (settle Sample.backend (status (call getHighlights Sample.on_last_page))
                      Sample.on_last_page))
  = Sample.highlight_of ∘ Sample.article <$> [1; 2]
  /\ pageIndex (live (settle Sample.backend (status (call getHighlights Sample.on_last_page))
                        Sample.on_last_page)) = 0%Z
  /\ cursor_ok (page (default (start "s1")
                        (run Sample.before_replacement_story (start "s1")))).
Proof.
  destruct (highlights_replaced_cursor_reset Sample.on_last_page Sample.on_last_page
              Sample.backend (Some (Sample.highlight_of ∘ Sample.article <$> [1; 2]))
              "s1" Sample.before_replacement_story
              (default (start "s1") (run Sample.before_replacement_story (start "s1"))))
    as ((Hitems & Hcursor) & _ & Hreach & _);
    [vm_compute; lia | reflexivity | vm_compute; reflexivity |].
  split; [exact Hitems |]. split; [exact Hcursor | exact Hreach].
Defined.

(** ** Duplicate invocations *)

(** C7, as stated, fails: no handler looks at its in-flight flag.  Called
    while [loadingTweets] is set, [makeTweets] sends its request again; so
    does [getHighlights] while [loadingSummaries] is set; and
    [sendTweetMessage], which has no flag, sends a second request while the
    first is outstanding. *)
Lemma handlers_ignore_in_flight_flag :
  loadingTweets Sample.tweets_in_flight = true
  /\ requests_of (trace (call makeTweets Sample.tweets_in_flight))
     = [POST "/tweets" (Tweets "s1" (Sample.highlight_of ∘ Sample.article <$> [1; 2]))]
  /\ loadingSummaries Sample.summaries_in_flight = true
  /\ requests_of (trace (call getHighlights Sample.summaries_in_flight))
     = [POST "/summaries_selected" (SummariesSelected (Sample.article <$> [1; 2]))]
  /\ is_waiting (status Sample.asked) = true
  /\ requests_of (trace (call (sendTweetMessage "shorter") (live Sample.asked)))
     = requests_of (trace Sample.asked)
  /\ length (requests_of (trace Sample.asked)) = 1.
Proof. repeat split; vm_compute; reflexivity. Qed.

(** C7 (amended).  Duplicate invocations are kept out by the markup, not
    by the handlers: while the in-flight flag of fetch, summarize,
    generate tweets or generate newsletter is set, its button is disabled
    and a click starts no handler, so the click is no event of the
    session: nothing is sent and no state changes.  The same holds for the
    modal's Apply button while the modal is loading.  No signal is
    returned. *)
Theorem in_flight_click_is_dropped
    (b : Button) (w : World) (props : EditorModal.Props) (s : EditorModal.State) :
  (in_flight b (page w) = true ->
   click b (page w) = None /\ step (User (Click b)) w = None)
  /\ (EditorModal.loading s = true -> EditorModal.click_apply props s = None).
Proof.
  split.
  - intros Hflag.
    assert (Hclick : click b (page w) = None).
    { unfold click. destruct b; cbn [in_flight disabled] in *;
        try discriminate Hflag; by rewrite Hflag, ?orb_true_r, ?andb_false_r. }
    split; [exact Hclick |]. cbn. by rewrite Hclick.
  - unfold EditorModal.click_apply. intros Hflag. by rewrite Hflag, andb_false_r.
Qed.

Lemma in_flight_click_is_dropped_witness :
  step (User (Click GetSummariesButton))
    (default (start "s1") (run Sample.before_replacement_story (start "s1")))
  = None
  /\ EditorModal.click_apply (editorModal Sample.editingA)
       (EditorModal.setLoading true (EditorModal.initial (editorModal Sample.editingA)))
     = None.
Proof.
  split.
  - apply (in_flight_click_is_dropped GetSummariesButton
             (default (start "s1") (run Sample.before_replacement_story (start "s1")))
             (editorModal Sample.editingA)
             (EditorModal.initial (editorModal Sample.editingA))).
    vm_compute. reflexivity.
  - apply (in_flight_click_is_dropped GetHighlightsButton (start "s1")). reflexivity.
Defined.

(** ** The conversation mirrored to [localStorage] *)

Lemma string_append_cons (c : ascii) (a b : string) :
  String c a +:+ b = String c (a +:+ b).
Proof. reflexivity. Qed.

Lemma string_append_nil_r (a : string) : a +:+ "" = a.
Proof. induction a as [|x a IH]; [done | by rewrite string_append_cons, IH]. Qed.

Lemma string_append_assoc (a b c : string) : (a +:+ b) +:+ c = a +:+ (b +:+ c).
Proof. induction a as [|x a IH]; [done | by rewrite !string_append_cons, IH]. Qed.

Lemma string_length_append (a b : string) :
  String.length (a +:+ b) = String.length a + String.length b.
Proof.
  induction a as [|x a IH]; [done |].
  rewrite string_append_cons. simpl. by rewrite IH.
Qed.

(** Reading back the escape of one code unit gives the code unit. *)
Lemma unquote_chars_quote_char (c : ascii) (rest : string) :
  JSON.unquote_chars (JSON.quote_char c +:+ rest)
  = JSON.push c (JSON.unquote_chars rest).
Proof. destruct c as [[] [] [] [] [] [] [] []]; reflexivity. Qed.

Lemma unquote_chars_quote_chars (s rest : string) :
  JSON.unquote_chars (JSON.quote_chars s +:+ String JSON.dquote rest) = Some (s, rest).
Proof.
  induction s as [|c s IH]; [reflexivity |].
  cbn [JSON.quote_chars].
  rewrite string_append_assoc, unquote_chars_quote_char, IH. reflexivity.
Qed.

Lemma unquote_quote (s rest : string) :
  JSON.unquote (JSON.quote s +:+ rest) = Some (s, rest).
Proof.
  unfold JSON.quote.
  rewrite string_append_cons, string_append_assoc, string_append_cons.
  cbn [JSON.unquote]. rewrite Ascii.eqb_refl. apply unquote_chars_quote_chars.
Qed.

Lemma expect_append (pre s : string) : JSON.expect pre (pre +:+ s) = Some s.
Proof.
  induction pre as [|c pre IH]; [reflexivity |].
  rewrite string_append_cons. cbn [JSON.expect]. by rewrite Ascii.eqb_refl.
Qed.

Lemma parse_turn_stringify_turn (t : Turn.t) (rest : string) :
  JSON.parse_turn (JSON.stringify_turn t +:+ rest) = Some (t, rest).
Proof.
  destruct t as [r c]. unfold JSON.parse_turn, JSON.stringify_turn.
  cbn [Turn.role Turn.content]. rewrite !string_append_assoc.
  rewrite <- (string_append_assoc "{" (JSON.key "role")), expect_append.
  cbn [mbind option_bind]. rewrite unquote_quote. cbn [mbind option_bind].
  rewrite <- (string_append_assoc "," (JSON.key "content")), expect_append.
  cbn [mbind option_bind]. rewrite unquote_quote. reflexivity.
Qed.

Lemma parse_more_stringify_more (ts : list Turn.t) : forall (fuel : nat) (rest : string),
  length ts < fuel ->
  JSON.parse_more fuel (JSON.stringify_more ts +:+ rest) = Some (ts, rest).
Proof.
  induction ts as [|t ts IH]; intros fuel rest Hfuel.
  - destruct fuel; [lia | reflexivity].
  - destruct fuel as [|fuel]; [simpl in Hfuel; lia |].
    cbn [JSON.stringify_more]. rewrite !string_append_assoc, string_append_cons.
    cbn [JSON.parse_more].
    change (Ascii.eqb "," "]") with false. change (Ascii.eqb "," ",") with true.
    cbv iota. change ("" +:+ ?x) with x.
    rewrite parse_turn_stringify_turn. cbn [mbind option_bind].
    rewrite IH by (simpl in Hfuel; lia). reflexivity.
Qed.

(** The fuel [parse] hands to [parse_more] is enough. *)
Lemma stringify_more_long (ts : list Turn.t) :
  length ts < String.length (JSON.stringify_more ts).
Proof.
  induction ts as [|t ts IH]; [simpl; lia |].
  cbn [JSON.stringify_more]. rewrite !string_length_append. simpl. lia.
Qed.

Lemma parse_stringify (ts : list Turn.t) : JSON.parse (JSON.stringify ts) = Some ts.
Proof.
  destruct ts as [|t ts]; [reflexivity |].
  unfold JSON.parse, JSON.stringify. rewrite expect_append. cbn [mbind option_bind].
  replace (JSON.expect "]" (JSON.stringify_turn t +:+ JSON.stringify_more ts))
    with (@None string) by (destruct t; reflexivity).
  rewrite parse_turn_stringify_turn. cbn [mbind option_bind].
  rewrite <- (string_append_nil_r (JSON.stringify_more ts)) at 2.
  rewrite parse_more_stringify_more by apply stringify_more_long.
  reflexivity.
Qed.

Lemma stringify_truthy (ts : list Turn.t) : truthy (JSON.stringify ts) = true.
Proof. destruct ts; reflexivity. Qed.

Lemma storage_key_inj (props props' : EditorModal.Props) :
  EditorModal.storage_key props = EditorModal.storage_key props' ->
  EditorModal.sessionId props = EditorModal.sessionId props'.
Proof. unfold EditorModal.storage_key. apply (inj (String.app "mem_")). Qed.

(** Loading from a store that holds the text of [h] under the key. *)
Lemma load_effect_stored (props : EditorModal.Props) (store : gmap string string)
    (h : list Turn.t) (s : EditorModal.State) :
  store !! EditorModal.storage_key props = Some (JSON.stringify h) ->
  EditorModal.load_effect props store s = EditorModal.setHistory h s.
Proof.
  intros Hstored. unfold EditorModal.load_effect.
  by rewrite Hstored, stringify_truthy, parse_stringify.
Qed.

(** C4, as stated, fails in its second half: the storage key is made of
    the session id alone, and the one modal serves every entity.  The
    conversation saved while the summary was edited is overwritten by the
    one saved while the newsletter was edited, and reopening the summary
    loads the newsletter's conversation. *)
Lemma editor_history_shared_between_entities :
  editTarget Sample.editing_summary = TargetSummary
  /\ editTarget Sample.editing_newsletter = TargetNewsletter
  /\ EditorModal.storage_key (editorModal Sample.editing_summary) = "mem_s1"
  /\ EditorModal.storage_key (editorModal Sample.editing_newsletter) = "mem_s1"
  /\ EditorModal.history
       (fst (EditorModal.mount (editorModal Sample.editing_summary) Sample.stored_summary))
     = Sample.summary_talk
  /\ EditorModal.history
       (fst (EditorModal.mount (editorModal Sample.editing_summary) Sample.stored_both))
     = Sample.newsletter_talk
  /\ Sample.newsletter_talk ≠ Sample.summary_talk.
Proof. repeat split; try (vm_compute; reflexivity). discriminate. Qed.

(** C4 (amended).  The modal's save effect writes the JSON text of its
    history under [mem_<sessionId>]; a modal of the same session that
    loads it, by its load effect or when it mounts, gets exactly that
    history, turn by turn in the same order, and what it writes back is
    the same text.  A save made for another session id in between does
    not disturb it.  The key has no entity part: the entities edited in
    one session share one stored conversation. *)
Theorem editor_history_roundtrip
    (props props' other : EditorModal.Props) (s s_other s' : EditorModal.State)
    (localStorage : gmap string string) :
  EditorModal.sessionId props' = EditorModal.sessionId props ->
  EditorModal.sessionId other ≠ EditorModal.sessionId props ->
  EditorModal.history
    (EditorModal.load_effect props'
       (EditorModal.save_effect other s_other (EditorModal.save_effect props s localStorage))
       s')
  = EditorModal.history s
  /\ EditorModal.history
       (fst (EditorModal.mount props'
               (EditorModal.save_effect other s_other
                  (EditorModal.save_effect props s localStorage))))
     = EditorModal.history s
  /\ snd (EditorModal.mount props'
            (EditorModal.save_effect other s_other
               (EditorModal.save_effect props s localStorage)))
       !! EditorModal.storage_key props
     = Some (JSON.stringify (EditorModal.history s)).
Proof.
  intros Hsame Hother.
  assert (Hkey : EditorModal.storage_key props' = EditorModal.storage_key props)
    by (unfold EditorModal.storage_key; by rewrite Hsame).
  assert (Hstored :
    EditorModal.save_effect other s_other (EditorModal.save_effect props s localStorage)
      !! EditorModal.storage_key props'
    = Some (JSON.stringify (EditorModal.history s))).
  { unfold EditorModal.save_effect. rewrite Hkey.
    rewrite lookup_insert_ne by (intros Heq%storage_key_inj; done).
    apply lookup_insert_eq. }
  split; [by rewrite (load_effect_stored _ _ _ _ Hstored) |].
  unfold EditorModal.mount.
  rewrite Hstored, stringify_truthy, parse_stringify.
  rewrite bool_decide_eq_true_2 by eauto. cbn [andb fst snd].
  rewrite (load_effect_stored _ _ _ _ Hstored).
  split; [reflexivity |].
  unfold EditorModal.save_effect at 1. rewrite Hkey. apply lookup_insert_eq.
Qed.

Lemma editor_history_roundtrip_witness :
  EditorModal.history
    (fst (EditorModal.mount (editorModal Sample.editing_summary)
            (EditorModal.save_effect Sample.other_session
               (Sample.modal_with Sample.other_session Sample.newsletter_talk)
               Sample.stored_summary)))
  = [Sample.user "tighten the intro"; Sample.assistant "Done."].
Proof.
  destruct (editor_history_roundtrip
              (editorModal Sample.editing_summary) (editorModal Sample.editing_summary)
              Sample.other_session
              (Sample.modal_with (editorModal Sample.editing_summary) Sample.summary_talk)
              (Sample.modal_with Sample.other_session Sample.newsletter_talk)
              (EditorModal.initial (editorModal Sample.editing_summary))
              ∅)
    as (_ & Hmount & _); [reflexivity | vm_compute; discriminate |].
  exact Hmount.
Defined.

(** * Further properties of the handlers *)

Import Pipeline.

(** ** Fetching *)

Lemma filter_all_checked (arts : list Article.t) (sel : list string) :
  (forall a, a ∈ arts -> Article.link a ∈ sel) ->
  filter (fun a => Article.link a ∈ sel) arts = arts.
Proof.
  induction arts as [|a arts IH]; intros Hall; [reflexivity |].
  rewrite filter_cons_True by (apply Hall; left).
  f_equal. apply IH. intros b Hb. apply Hall. by right.
Qed.

(** The outcome of a fetch whose two requests are answered. *)
Lemma after_fetch_answered
    (p : State) (be : Backend) (fetched : list Article.t) (markdown : string) :
  be (aggregate_request p) = Some fetched ->
  be (highlights_request p fetched) = Some markdown ->
  after_fetch be p
  = {| live := setSummariesMode false
                 (setSummary (if bool_decide (0 < length fetched)
                              then markdown else no_articles_message)
                    (setSelectedArticles (Article.link <$> fetched)
                       (setArticles fetched
                          (setLoadingHighlights false (setLoadingHighlights true p)))));
       trace := [Sent (aggregate_request p); Sent (highlights_request p fetched)];
       status := Finished tt |}.
Proof.
  intros Hagg Hhl. unfold aggregate_request, highlights_request in *.
  unfold after_fetch, fetchAndSummarize. cbn. rewrite Hagg. cbn. rewrite Hhl.
  case_bool_decide; reflexivity.
Qed.

(** X1.  A fetch whose two requests are answered stores the returned
    articles and selects every one of them, so that Get Summaries would
    send them all; when more than five articles came back, Get Summaries
    called right after is refused with the notice and sends nothing. *)
Theorem fetch_selects_every_article
    (p : State) (be : Backend) (fetched : list Article.t) (markdown : string) :
  be (aggregate_request p) = Some fetched ->
  be (highlights_request p fetched) = Some markdown ->
  status (after_fetch be p) = Finished tt
  /\ trace (after_fetch be p)
     = [Sent (aggregate_request p); Sent (highlights_request p fetched)]
  /\ articles (live (after_fetch be p)) = fetched
  /\ selectedArticles (live (after_fetch be p)) = Article.link <$> fetched
  /\ loadingHighlights (live (after_fetch be p)) = false
  /\ summariesMode (live (after_fetch be p)) = false
  /\ checked_articles (live (after_fetch be p)) = fetched
  /\ (5 < length fetched ->
      requests_of (trace (call getHighlights (live (after_fetch be p)))) = []
      /\ alerts_of (trace (call getHighlights (live (after_fetch be p))))
         = [selection_limit_message (length fetched)]
      /\ live (call getHighlights (live (after_fetch be p))) = live (after_fetch be p)).
Proof.
  intros Hagg Hhl.
  assert (Hrun := after_fetch_answered p be fetched markdown Hagg Hhl).
  rewrite Hrun. cbn [live trace status].
  assert (Hchecked : checked_articles
            (setSummariesMode false
               (setSummary (if bool_decide (0 < length fetched)
                            then markdown else no_articles_message)
                  (setSelectedArticles (Article.link <$> fetched)
                     (setArticles fetched
                        (setLoadingHighlights false (setLoadingHighlights true p))))))
          = fetched).
  { unfold checked_articles. cbn. apply filter_all_checked.
    intros a Ha. by apply list_elem_of_fmap_2. }
  do 6 (split; [reflexivity |]). split; [exact Hchecked |].
  intros Hmany. unfold call, getHighlights. cbn [selectedArticles setSummariesMode setSummary setSelectedArticles].
  rewrite length_fmap, bool_decide_eq_true_2 by done. by repeat split.
Qed.

Lemma fetch_selects_every_article_witness :
  selectedArticles (live (after_fetch Sample.backend (initial "s1")))
  = Sample.link_of <$> [1; 2; 3; 4; 5; 6]
  /\ requests_of
       (trace (call getHighlights (live (after_fetch Sample.backend (initial "s1"))))) = [].
Proof.
  destruct (fetch_selects_every_article (initial "s1") Sample.backend
              (Sample.article <$> [1; 2; 3; 4; 5; 6]) "Weekly highlights")
    as (_ & _ & _ & Hselected & _ & _ & _ & Hrefused); [reflexivity | reflexivity |].
  split; [rewrite Hselected; reflexivity |].
  apply Hrefused. vm_compute. lia.
Defined.

(** X2.  A fetch that returns no article leaves the page with the
    no-articles notice as its summary text.  The notice counts as a
    summary: the Get Highlights button is gone, Get Summaries is shown but
    disabled, and Reset is the one pipeline control left to click. *)
Theorem empty_fetch_leaves_only_reset (p : State) (be : Backend) (markdown : string) :
  be (aggregate_request p) = Some [] ->
  be (highlights_request p []) = Some markdown ->
  summary (live (after_fetch be p)) = no_articles_message
  /\ articles (live (after_fetch be p)) = []
  /\ selectedArticles (live (after_fetch be p)) = []
  /\ hasHighlights (live (after_fetch be p)) = true
  /\ click GetHighlightsButton (live (after_fetch be p)) = None
  /\ click GetSummariesButton (live (after_fetch be p)) = None
  /\ click ResetButton (live (after_fetch be p))
     = Some (resetSummaries (live (after_fetch be p))).
Proof.
  intros Hagg Hhl. rewrite (after_fetch_answered p be [] markdown Hagg Hhl).
  cbn [live length]. rewrite bool_decide_eq_false_2 by lia.
  do 5 (split; [reflexivity |]). split; [| reflexivity].
  unfold click. cbn. by rewrite orb_true_r.
Qed.

Lemma empty_fetch_leaves_only_reset_witness :
  summary (live (after_fetch Scenario.empty_feed (initial "s1")))
  = "No articles found for the selected sources in the past 7 days.".
Proof.
  destruct (empty_fetch_leaves_only_reset (initial "s1") Scenario.empty_feed "Weekly highlights") as (Hnotice & _);
    [reflexivity | reflexivity |].
  exact Hnotice.
Defined.

(** ** Failed requests *)

(** X3.  When the request of a pipeline operation fails, in whatever state
    [s] the failure arrives, the handler clears its own loading flag,
    rethrows, and writes nothing else: no stage data is touched and
    nothing further is sent. *)
Theorem failed_request_clears_only_its_flag (b : Button) (p s : State) (be : Backend) :
  is_waiting (status (call (onClick b) p)) = true ->
  (forall rq, be rq = None) ->
  settle be (status (call (onClick b) p)) s
  = {| live := set_in_flight b false s; trace := []; status := Thrown |}.
Proof.
  intros Hwaiting Hfails. unfold call in *.
  destruct b; cbn in Hwaiting; try discriminate Hwaiting.
  - cbn. by rewrite Hfails.
  - unfold onClick, getHighlights in *. case_bool_decide; [discriminate Hwaiting |].
    cbn. by rewrite Hfails.
  - cbn. by rewrite Hfails.
  - cbn. by rewrite Hfails.
Qed.

Lemma failed_request_clears_only_its_flag_witness :
  settle Scenario.offline (status (call (onClick GenerateTweetsButton) Sample.editingA))
    Sample.editingA_long
  = {| live := setLoadingTweets false Sample.editingA_long; trace := [];
       status := Thrown |}.
Proof.
  apply (failed_request_clears_only_its_flag GenerateTweetsButton Sample.editingA
           Sample.editingA_long Scenario.offline); reflexivity.
Defined.

(** X4.  [fetchAndSummarize] writes no partial result: when the articles
    arrive but the request for the highlights fails, the fetched articles
    are dropped, the article list, the selection and the summary stay as
    they were, the loading flag is cleared and the error is rethrown. *)
Theorem fetch_is_all_or_nothing (p : State) (be : Backend) (fetched : list Article.t) :
  be (aggregate_request p) = Some fetched ->
  be (highlights_request p fetched) = None ->
  after_fetch be p
  = {| live := setLoadingHighlights false (setLoadingHighlights true p);
       trace := [Sent (aggregate_request p); Sent (highlights_request p fetched)];
       status := Thrown |}
  /\ articles (live (after_fetch be p)) = articles p
  /\ selectedArticles (live (after_fetch be p)) = selectedArticles p
  /\ summary (live (after_fetch be p)) = summary p
  /\ loadingHighlights (live (after_fetch be p)) = false.
Proof.
  intros Hagg Hhl. unfold aggregate_request, highlights_request in *.
  unfold after_fetch, fetchAndSummarize. cbn. rewrite Hagg. cbn. rewrite Hhl.
  by repeat split.
Qed.

Lemma fetch_is_all_or_nothing_witness :
  articles (live (after_fetch Scenario.highlights_down Sample.editingA))
  = Sample.article <$> [1; 2; 3; 4; 5; 6]
  /\ status (after_fetch Scenario.highlights_down Sample.editingA)
     = Thrown.
Proof.
  destruct (fetch_is_all_or_nothing Sample.editingA Scenario.highlights_down (Sample.article <$> [1; 2; 3; 4; 5; 6]))
    as (Hrun & Harticles & _); [reflexivity | reflexivity |].
  split; [rewrite Harticles; reflexivity | rewrite Hrun; reflexivity].
Defined.

(** ** The inline tweet editor *)

Lemma find_tweet_id (editing : string) (l : list Tweet.t) (tw : Tweet.t) :
  List.find (fun t => bool_decide (Tweet.id t = editing)) l = Some tw ->
  tw ∈ l /\ Tweet.id tw = editing.
Proof.
  intros Hfind. apply find_some in Hfind as [Hin Hid%bool_decide_eq_true].
  split; [by apply list_elem_of_In | done].
Qed.

(** X5.  [sendTweetMessage] never throws, whatever the backend does: it
    always returns.  A failed request changes no state (the proposal slot
    and the conversations are as before) and returns the apology text.  Without a tweet open in the editor, or when the open id
    is not among the tweets, nothing is sent and nothing is returned. *)
Theorem sendTweetMessage_never_throws (message : string) (p : State) (be : Backend) :
  (exists v, status (complete be (sendTweetMessage message p) p) = Finished v)
  /\ ((forall rq, be rq = None) ->
      live (complete be (sendTweetMessage message p) p) = p
      /\ (status (complete be (sendTweetMessage message p) p) = Finished None
          \/ status (complete be (sendTweetMessage message p) p)
             = Finished (Some edit_error_reply)))
  /\ (truthy_opt (currentEditingTweetId p) = false
      \/ (forall tw, tw ∈ tweets p -> Some (Tweet.id tw) ≠ currentEditingTweetId p) ->
      call (sendTweetMessage message) p
      = {| live := p; trace := []; status := Finished None |}).
Proof.
  unfold call, sendTweetMessage.
  destruct (currentEditingTweetId p) as [editing|] eqn:Hediting;
    [| split; [eauto | split; [eauto | reflexivity]]].
  destruct (truthy editing) eqn:Hid; cbn [negb];
    [| split; [eauto | split; [eauto | reflexivity]]].
  destruct (List.find _ (tweets p)) as [currentTweet|] eqn:Hfind;
    [| split; [eauto | split; [eauto | reflexivity]]].
  split; [| split].
  - cbn -[edit_tweet_request]. destruct (be _); cbn; eauto.
  - intros Hfails. cbn -[edit_tweet_request]. rewrite Hfails. cbn. eauto.
  - intros [Hnone | Habsent]; [cbn in Hnone; congruence |].
    apply find_tweet_id in Hfind as [Hin Hsame].
    destruct (Habsent currentTweet Hin). by rewrite Hsame.
Qed.

Lemma sendTweetMessage_never_throws_witness :
  live (complete Scenario.offline (sendTweetMessage "shorter" Sample.editingA) Sample.editingA)
  = Sample.editingA
  /\ call (sendTweetMessage "shorter") (setCurrentEditingTweetId (Some "gone") Sample.editingA)
     = {| live := setCurrentEditingTweetId (Some "gone") Sample.editingA;
          trace := []; status := Finished None |}.
Proof.
  split.
  - apply (sendTweetMessage_never_throws "shorter" Sample.editingA Scenario.offline).
    reflexivity.
  - apply (sendTweetMessage_never_throws "shorter"
             (setCurrentEditingTweetId (Some "gone") Sample.editingA) Scenario.offline).
    right. intros tw Htw. change (tw ∈ [Sample.tweetA; Sample.tweetB]) in Htw.
    apply elem_of_cons in Htw as [-> | Htw]; [discriminate |].
    apply elem_of_cons in Htw as [-> | Htw]; [discriminate |].
    by apply elem_of_nil in Htw.
Defined.

Lemma find_fmap_same_test {A : Type} (test : A -> bool) (f : A -> A) (l : list A) :
  (forall x, test (f x) = test x) ->
  List.find test (f <$> l) = f <$> List.find test l.
Proof.
  intros Hsame. induction l as [|x l IH]; [reflexivity |].
  cbn. rewrite Hsame. destruct (test x); [reflexivity | exact IH].
Qed.

(** X6.  One round of the edit protocol.  A message sent for the tweet
    open in the editor and answered with a non-empty text leaves the
    tweets as they are and stages the text as the proposal; Accept then
    writes it to the tweets with the edited id and to no other, and clears
    the proposal.  The next message is sent with the accepted text as the
    current tweet and with exactly the history the backend returned. *)
Theorem edit_round
    (p : State) (message next_message editing : string) (currentTweet : Tweet.t)
    (be : Backend) (data : EditTweetData.t) :
  currentEditingTweetId p = Some editing ->
  truthy editing = true ->
  List.find (fun t => bool_decide (Tweet.id t = editing)) (tweets p) = Some currentTweet ->
  be (edit_tweet_request message currentTweet p) = Some data ->
  truthy (EditTweetData.new_tweet data) = true ->
  tweets (after_message be message p) = tweets p
  /\ pendingTweetUpdate (after_message be message p) = Some (EditTweetData.new_tweet data)
  /\ pendingTweetUpdate (after_accept (after_message be message p)) = None
  /\ (forall (i : nat) (tw : Tweet.t),
        tweets p !! i = Some tw ->
        tweets (after_accept (after_message be message p)) !! i
        = Some (if bool_decide (Tweet.id tw = editing)
                then Tweet.with_content (EditTweetData.new_tweet data) tw
                else tw))
  /\ trace (call (sendTweetMessage next_message) (after_accept (after_message be message p)))
     = [Sent (edit_tweet_request next_message
                (Tweet.with_content (EditTweetData.new_tweet data) currentTweet)
                (after_accept (after_message be message p)))]
  /\ exists sid orig,
       body (edit_tweet_request next_message
               (Tweet.with_content (EditTweetData.new_tweet data) currentTweet)
               (after_accept (after_message be message p)))
       = EditTweet sid editing (EditTweetData.new_tweet data) orig next_message
           (EditTweetData.conversation_history data).
Proof.
  intros Hediting Hid Hfind Hbe Htext.
  destruct (find_tweet_id _ _ _ Hfind) as [_ Hsame].
  assert (Hq : after_message be message p
    = setTweetConversations
        (<[Tweet.id currentTweet := EditTweetData.conversation_history data]>
           (tweetConversations p))
        (setPendingTweetUpdate (Some (EditTweetData.new_tweet data)) p)).
  { unfold after_message, sendTweetMessage. rewrite Hediting, Hid, Hfind.
    cbn [negb]. cbn -[edit_tweet_request]. rewrite Hbe. reflexivity. }
  assert (Hr : after_accept (after_message be message p)
    = setPendingTweetUpdate None
        (setTweets ((fun tweet => if bool_decide (Tweet.id tweet = editing)
                                  then Tweet.with_content (EditTweetData.new_tweet data) tweet
                                  else tweet) <$> tweets p)
           (after_message be message p))).
  { rewrite Hq at 1. unfold after_accept, call, acceptTweetUpdate. cbn.
    rewrite Hediting, Hid, Htext. cbn. by rewrite Hq. }
  split; [by rewrite Hq |]. split; [by rewrite Hq |]. split; [by rewrite Hr |].
  split; [intros i tw Hi; rewrite Hr; cbn; by rewrite list_lookup_fmap, Hi |].
  assert (Hnext : List.find (fun t => bool_decide (Tweet.id t = editing))
                    (tweets (after_accept (after_message be message p)))
                  = Some (Tweet.with_content (EditTweetData.new_tweet data) currentTweet)).
  { rewrite Hr. cbn [tweets setPendingTweetUpdate setTweets].
    rewrite find_fmap_same_test
      by (intros x; destruct (bool_decide (Tweet.id x = editing)) eqn:Hx;
          [exact Hx | exact Hx]).
    rewrite Hfind. cbn. by rewrite bool_decide_eq_true_2. }
  split.
  - unfold call, sendTweetMessage.
    replace (currentEditingTweetId (after_accept (after_message be message p)))
      with (Some editing) by (by rewrite Hr, Hq).
    rewrite Hid, Hnext. reflexivity.
  - unfold edit_tweet_request. cbn [body].
    replace (tweetConversations (after_accept (after_message be message p)))
      with (<[Tweet.id currentTweet := EditTweetData.conversation_history data]>
              (tweetConversations p)) by (by rewrite Hr, Hq).
    cbn. rewrite lookup_insert_eq. rewrite Hsame. eauto.
Qed.

Lemma edit_round_witness :
  Tweet.content <$> tweets (after_accept (after_message Sample.backend "shorter" Sample.editingA))
  = ["Launch day"; "Benchmarks are in"]
  /\ requests_of
       (trace (call (sendTweetMessage "warmer")
                 (after_accept (after_message Sample.backend "shorter" Sample.editingA))))
     = [POST "/edit_tweet"
          (EditTweet "s1" "t1" "Launch day" "Summary of Article 1" "warmer"
             [Sample.user "punchier"; Sample.assistant "Here you go.";
              Sample.user "shorter"; Sample.assistant "Shortened."])].
Proof.
  destruct (edit_round Sample.editingA "shorter" "warmer" "t1" Sample.tweetA Sample.backend
              {| EditTweetData.new_tweet := "Launch day";
                 EditTweetData.conversation_history :=
                   [Sample.user "punchier"; Sample.assistant "Here you go.";
                    Sample.user "shorter"; Sample.assistant "Shortened."];
                 EditTweetData.ai_response := "Shortened." |})
    as (_ & _ & _ & _ & Hnext & _);
    [reflexivity | reflexivity | reflexivity | reflexivity | reflexivity |].
  split; [vm_compute; reflexivity |].
  rewrite Hnext. vm_compute. reflexivity.
Defined.

(** What the cards call is what the session's handler gives for the
    event of the control; a blank message apart, which the form drops. *)
Lemma card_click_is_handled (idx : nat) (c : TweetCards.Control) (p : State)
    (t : Task State unit) :
  TweetCards.click idx c p = Some t ->
  (forall message, c = TweetCards.Send message -> TweetCards.blank message = false) ->
  handler (match c with
           | TweetCards.EditWithAI => TweetEdit idx
           | TweetCards.Close => TweetClose
           | TweetCards.Accept => TweetAccept
           | TweetCards.Reject => TweetReject
           | TweetCards.Send message => TweetSend message
           end) p
  = Some t.
Proof.
  unfold TweetCards.click. intros Hclick Hblank.
  destruct (tweets p !! idx) as [tweet|] eqn:Hidx; [| discriminate]. cbn in Hclick.
  destruct (TweetCards.rendered c tweet p && negb (TweetCards.disabled c p));
    [| discriminate].
  injection Hclick as <-.
  assert (Hcards : bool_decide (0 < length (tweets p)) = true).
  { apply bool_decide_eq_true_2. apply lookup_lt_Some in Hidx. lia. }
  destruct c as [| | | | message]; unfold handler; cbn [TweetCards.onClick].
  - by rewrite Hidx.
  - by rewrite Hcards.
  - by rewrite Hcards.
  - by rewrite Hcards.
  - rewrite Hcards. unfold TweetCards.onSubmit. by rewrite (Hblank message eq_refl).
Qed.

(** X7.  The close control is on the card of the tweet being edited and
    on no other.  Clicking it drops the proposal without committing it and
    leaves no tweet open: afterwards the cards have no control but Edit
    with AI, and until the editor is opened again a message sends nothing
    and Accept changes nothing. *)
Theorem closed_editor_is_inert
    (p : State) (idx : nat) (t : Task State unit) (message : string) :
  TweetCards.click idx TweetCards.Close p = Some t ->
  t = onCloseEditor p
  /\ (exists tweet, tweets p !! idx = Some tweet
                    /\ currentEditingTweetId p = Some (Tweet.id tweet))
  /\ exec t p
     = {| live := setPendingTweetUpdate None (setCurrentEditingTweetId None p);
          trace := []; status := Finished tt |}
  /\ tweets (live (exec t p)) = tweets p
  /\ (forall (tweet : Tweet.t) (c : TweetCards.Control),
        TweetCards.rendered c tweet (live (exec t p)) = true -> c = TweetCards.EditWithAI)
  /\ call (sendTweetMessage message) (live (exec t p))
     = {| live := live (exec t p); trace := []; status := Finished None |}
  /\ call acceptTweetUpdate (live (exec t p))
     = {| live := live (exec t p); trace := []; status := Finished tt |}.
Proof.
  unfold TweetCards.click. intros Hclick.
  destruct (tweets p !! idx) as [tweet|] eqn:Hidx; [| discriminate]. cbn in Hclick.
  rewrite andb_true_r in Hclick.
  destruct (isEditing (Tweet.id tweet) p) eqn:Hopen; [| discriminate].
  injection Hclick as <-.
  split; [reflexivity |].
  split; [exists tweet; split; [reflexivity | by apply bool_decide_eq_true in Hopen] |].
  split; [reflexivity |]. split; [reflexivity |].
  split; [| by split].
  intros card c Hrendered.
  destruct c as [| | | | sent]; [reflexivity | discriminate Hrendered | | | discriminate Hrendered].
  - by rewrite (no_proposal_no_suggestion card) in Hrendered.
  - by rewrite (no_proposal_no_suggestion card) in Hrendered.
Qed.

Lemma closed_editor_is_inert_witness :
  pendingTweetUpdate (live (call onCloseEditor Sample.editingA)) = None
  /\ tweets (live (call onCloseEditor Sample.editingA))
     = [Sample.tweetA; Sample.tweetB].
Proof.
  destruct (closed_editor_is_inert Sample.editingA 0 (onCloseEditor Sample.editingA)
              "shorter")
    as (_ & _ & Hcall & Htweets & _); [reflexivity |].
  split; [unfold call; by rewrite Hcall | exact Htweets].
Defined.

(** X16.  A card has the Edit with AI button only while its tweet is not
    the one being edited, so the button always opens: the click makes the
    card's tweet the one being edited and drops any proposal, after which
    the card has the close control in place of the button.  The branch of
    [openTweetEditor] that closes the editor is never taken from the
    cards. *)
Theorem edit_button_always_opens (p : State) (idx : nat) (t : Task State unit) :
  TweetCards.click idx TweetCards.EditWithAI p = Some t ->
  exists tweet : Tweet.t,
    tweets p !! idx = Some tweet
    /\ currentEditingTweetId p ≠ Some (Tweet.id tweet)
    /\ t = openTweetEditor tweet p
    /\ exec t p
       = {| live := setPendingTweetUpdate None
                      (setCurrentEditingTweetId (Some (Tweet.id tweet)) p);
            trace := []; status := Finished tt |}
    /\ TweetCards.click idx TweetCards.EditWithAI (live (exec t p)) = None
    /\ TweetCards.click idx TweetCards.Close (live (exec t p))
       = Some (onCloseEditor (live (exec t p))).
Proof.
  unfold TweetCards.click at 1. intros Hclick.
  destruct (tweets p !! idx) as [tweet|] eqn:Hidx; [| discriminate]. cbn in Hclick.
  rewrite andb_true_r in Hclick.
  destruct (isEditing (Tweet.id tweet) p) eqn:Hopen; [discriminate |].
  injection Hclick as <-. exists tweet.
  apply bool_decide_eq_false in Hopen.
  assert (Hcall : exec (openTweetEditor tweet p) p
                  = {| live := setPendingTweetUpdate None
                                 (setCurrentEditingTweetId (Some (Tweet.id tweet)) p);
                       trace := []; status := Finished tt |}).
  { unfold openTweetEditor. by rewrite bool_decide_eq_false_2. }
  rewrite Hcall. cbn [live].
  split; [reflexivity |]. split; [exact Hopen |]. split; [reflexivity |].
  split; [reflexivity |].
  unfold TweetCards.click. cbn. rewrite Hidx. cbn. unfold isEditing. cbn.
  by rewrite bool_decide_eq_true_2.
Qed.

Lemma edit_button_always_opens_witness :
  exists tweet : Tweet.t,
    tweets Sample.editingA !! 1 = Some tweet
    /\ currentEditingTweetId (live (call (openTweetEditor Sample.tweetB) Sample.editingA))
       = Some (Tweet.id tweet).
Proof.
  destruct (edit_button_always_opens Sample.editingA 1
              (openTweetEditor Sample.tweetB Sample.editingA))
    as (tweet & Hidx & _ & _ & Hcall & _); [reflexivity |].
  exists tweet. split; [exact Hidx | unfold call; by rewrite Hcall].
Defined.

(** ** The article selection *)

Lemma toggled_selection (articleUrl : string) (p : State) :
  toggled articleUrl p
  = setSelectedArticles
      (if bool_decide (articleUrl ∈ selectedArticles p)
       then filter (fun url => url ≠ articleUrl) (selectedArticles p)
       else selectedArticles p ++ [articleUrl])
      p.
Proof. reflexivity. Qed.

(** X8.  Clicking an article's check box flips whether its link is
    selected and changes that of no other link; unchecking removes every
    occurrence of the link, checking appends it once, so a selection
    without repetitions stays without repetitions; a second click selects
    the same links as before the first.  Nothing but the selection
    changes. *)
Theorem toggle_flips_one_link (articleUrl : string) (p : State) :
  (articleUrl ∈ selectedArticles (toggled articleUrl p)
   <-> articleUrl ∉ selectedArticles p)
  /\ (forall other : string,
        other ≠ articleUrl ->
        other ∈ selectedArticles (toggled articleUrl p) <-> other ∈ selectedArticles p)
  /\ (NoDup (selectedArticles p) -> NoDup (selectedArticles (toggled articleUrl p)))
  /\ (forall x : string,
        x ∈ selectedArticles (toggled articleUrl (toggled articleUrl p))
        <-> x ∈ selectedArticles p)
  /\ toggled articleUrl p
     = setSelectedArticles (selectedArticles (toggled articleUrl p)) p.
Proof.
  assert (Hflip : forall q : State,
            (articleUrl ∈ selectedArticles (toggled articleUrl q)
             <-> articleUrl ∉ selectedArticles q)
            /\ (forall other : string,
                  other ≠ articleUrl ->
                  other ∈ selectedArticles (toggled articleUrl q)
                  <-> other ∈ selectedArticles q)).
  { intros q. rewrite toggled_selection. cbn [selectedArticles setSelectedArticles].
    case_bool_decide as Hin; split.
    - rewrite list_elem_of_filter. tauto.
    - intros other Hother. rewrite list_elem_of_filter. tauto.
    - rewrite elem_of_app, list_elem_of_singleton. tauto.
    - intros other Hother. rewrite elem_of_app, list_elem_of_singleton. tauto. }
  destruct (Hflip p) as [Hurl Hothers].
  split; [exact Hurl |]. split; [exact Hothers |]. split; [| split].
  - intros Hnodup. rewrite toggled_selection. cbn [selectedArticles setSelectedArticles].
    case_bool_decide as Hin.
    + by apply NoDup_filter.
    + apply NoDup_app. split; [done |]. split; [| apply NoDup_singleton].
      intros x Hx ->%list_elem_of_singleton. done.
  - intros x. destruct (Hflip (toggled articleUrl p)) as [Hurl2 Hothers2].
    destruct (decide (x = articleUrl)) as [-> | Hx].
    + rewrite Hurl2, Hurl. destruct (decide (articleUrl ∈ selectedArticles p)); tauto.
    + by rewrite (Hothers2 x Hx), (Hothers x Hx).
  - rewrite toggled_selection. reflexivity.
Qed.

(** X15.  Select All checks the box of every article on the page, so
    that all of them would be sent, and with more than five articles on
    the page Get Summaries then refuses; Deselect All unchecks every box
    and thereby disables Get Summaries.  Neither touches anything but the
    selection. *)
Theorem select_all_and_none (p : State) :
  checked_articles (live (call selectAllArticles p)) = articles p
  /\ length (selectedArticles (live (call selectAllArticles p))) = length (articles p)
  /\ live (call selectAllArticles p)
     = setSelectedArticles (Article.link <$> articles p) p
  /\ (5 < length (articles p) ->
      requests_of (trace (call getHighlights (live (call selectAllArticles p)))) = []
      /\ alerts_of (trace (call getHighlights (live (call selectAllArticles p))))
         = [selection_limit_message (length (articles p))])
  /\ checked_articles (live (call deselectAllArticles p)) = []
  /\ live (call deselectAllArticles p) = setSelectedArticles [] p
  /\ click GetSummariesButton (live (call deselectAllArticles p)) = None.
Proof.
  split; [| split; [| split; [| split; [| split; [| split]]]]].
  - unfold checked_articles. cbn. apply filter_all_checked.
    intros a Ha. by apply list_elem_of_fmap_2.
  - cbn. apply length_fmap.
  - reflexivity.
  - intros Hmany. unfold call, getHighlights.
    cbn [selectAllArticles setState exec live selectedArticles setSelectedArticles].
    rewrite length_fmap, bool_decide_eq_true_2 by done. by split.
  - unfold checked_articles. cbn. induction (articles p) as [|a l IH]; [done |].
    rewrite filter_cons_False; [exact IH | by intros ?%elem_of_nil].
  - reflexivity.
  - unfold click. cbn. by rewrite orb_true_r, andb_false_r.
Qed.

Lemma select_all_and_none_witness :
  alerts_of (trace (call getHighlights (live (call selectAllArticles Sample.deselected))))
  = ["Please select 5 or fewer articles for summarization. You currently have 6 articles selected."].
Proof.
  destruct (select_all_and_none Sample.deselected) as (_ & _ & _ & Hrefused & _).
  destruct Hrefused as [_ Halert]; [vm_compute; lia |].
  rewrite Halert. reflexivity.
Defined.

Lemma checked_articles_length (p : State) :
  NoDup (Article.link <$> articles p) ->
  NoDup (selectedArticles p) ->
  selectedArticles p ⊆ Article.link <$> articles p ->
  length (checked_articles p) = length (selectedArticles p).
Proof.
  intros Hlinks Hselected Hsubset.
  rewrite <- (length_fmap Article.link (checked_articles p)).
  apply Permutation_length, NoDup_Permutation; [| done |].
  - apply (sublist_NoDup _ (Article.link <$> articles p)); [done |].
    apply fmap_sublist, sublist_filter.
  - intros x. unfold checked_articles. rewrite list_elem_of_fmap. split.
    + intros (a & -> & Ha). by apply list_elem_of_filter in Ha as [Hsel _].
    + intros Hx. destruct (proj1 (list_elem_of_fmap _ _ _) (Hsubset x Hx)) as (a & -> & Ha).
      exists a. split; [done |]. by apply list_elem_of_filter.
Qed.

(** X9.  When no two fetched articles share a link and the selection
    lists links of fetched articles without repetition, [getHighlights]
    sends exactly as many articles as links are selected, in the order of
    the article list, and so never more than five. *)
Theorem at_most_five_articles_sent (p : State) (rq : Request) :
  NoDup (Article.link <$> articles p) ->
  NoDup (selectedArticles p) ->
  selectedArticles p ⊆ Article.link <$> articles p ->
  Sent rq ∈ trace (call getHighlights p) ->
  body rq = SummariesSelected (checked_articles p)
  /\ length (checked_articles p) = length (selectedArticles p)
  /\ length (checked_articles p) <= 5
  /\ checked_articles p `sublist_of` articles p.
Proof.
  intros Hlinks Hselected Hsubset Hsent.
  pose proof (checked_articles_length p Hlinks Hselected Hsubset) as Hlength.
  unfold call, getHighlights in Hsent. case_bool_decide as Hmany.
  - cbn in Hsent. apply list_elem_of_singleton in Hsent. discriminate Hsent.
  - cbn in Hsent. apply list_elem_of_singleton in Hsent. injection Hsent as ->.
    split; [reflexivity |]. split; [exact Hlength |]. split; [lia |].
    apply sublist_filter.
Qed.

Lemma at_most_five_articles_sent_witness :
  length (checked_articles Sample.on_last_page) = 2.
Proof.
  destruct (at_most_five_articles_sent Sample.on_last_page
              (POST "/summaries_selected" (SummariesSelected (Sample.article <$> [1; 2]))))
    as (_ & Hlength & _).
  - compute_done.
  - compute_done.
  - compute_done.
  - vm_compute. left.
  - rewrite Hlength. reflexivity.
Defined.

(** * Further invariants of a session *)

Import Invariants.

Lemma step_good_for (I : State -> Prop) :
  (forall e p t, handler e p = Some t -> I p ->
     I (live (exec t p)) /\ status_safe I (status (exec t p))) ->
  forall ev w w', step ev w = Some w' -> good_for I w -> good_for I w'.
Proof.
  intros Hcall ev w w' Hstep [Hpage Hpending]. destruct ev as [e | i be]; cbn in Hstep.
  - destruct (handler e (page w)) as [t|] eqn:Hhandler; [| discriminate].
    injection Hstep as <-.
    destruct (Hcall e (page w) t Hhandler Hpage) as [Hlive Hstatus].
    split; [exact Hlive |]. cbn. apply Forall_app. split; [done |].
    unfold suspended. destruct (is_waiting _); by constructor.
  - destruct (pending w !! i) as [st|] eqn:Hi; [| discriminate].
    injection Hstep as <-.
    assert (Hst : status_safe I st) by (eapply Forall_lookup_1; eauto).
    destruct (safe_settle I be st (page w) Hst Hpage) as [Hlive Hstatus].
    split; [exact Hlive |]. cbn. apply Forall_app.
    split; [by apply Forall_delete |].
    unfold suspended. destruct (is_waiting _); by constructor.
Qed.

Lemma run_good_for (I : State -> Prop) :
  (forall e p t, handler e p = Some t -> I p ->
     I (live (exec t p)) /\ status_safe I (status (exec t p))) ->
  forall evs w w', run evs w = Some w' -> good_for I w -> good_for I w'.
Proof.
  intros Hcall evs. induction evs as [|ev evs IH]; intros w w' Hrun Hw; cbn in Hrun.
  - by injection Hrun as <-.
  - destruct (step ev w) as [w1|] eqn:Hstep; [| discriminate].
    apply (IH w1 w' Hrun). by apply (step_good_for I Hcall ev w).
Qed.

Lemma handler_keeps_selection (e : UserEvent) (p : State) (t : Task State unit) :
  handler e p = Some t -> selection_ok p ->
  selection_ok (live (exec t p)) /\ status_safe selection_ok (status (exec t p)).
Proof.
  intros Hhandler Hp.
  assert (Hid : forall t' : Task State unit,
             safe selection_ok id t' ->
             selection_ok (live (exec t' p))
             /\ status_safe selection_ok (status (exec t' p)))
    by (intros t' Ht'; by apply (safe_exec selection_ok t' id p)).
  destruct e as [b| | | | | | | | | | | | | |];
    unfold handler in Hhandler; cbv beta iota zeta in Hhandler.
  - unfold click in Hhandler.
    destruct (rendered b p && negb (disabled b p)); [| discriminate].
    injection Hhandler as <-. apply Hid.
    destruct b; unfold onClick;
      [ unfold fetchAndSummarize | unfold resetSummaries | unfold getHighlights
      | unfold makeTweets | unfold makeNewsletter | | ]; solve_selection.
  - destruct (_ && _) eqn:Hshown; [| discriminate]. injection Hhandler as <-.
    apply andb_true_iff in Hshown as [_ Hlisted%bool_decide_eq_true].
    split; [| done]. change (selection_ok (toggled articleUrl p)).
    rewrite toggled_selection. unfold selection_ok in *.
    cbn [selectedArticles articles setSelectedArticles]. case_bool_decide.
    + intros x Hx%list_elem_of_filter. apply Hp. tauto.
    + intros x [Hx | ->%list_elem_of_singleton]%elem_of_app; [by apply Hp | done].
  - case_match; [| discriminate]. injection Hhandler as <-.
    split; [| done]. unfold selection_ok. reflexivity.
  - case_match; [| discriminate]. injection Hhandler as <-. apply Hid. solve_selection.
  - case_match; [| discriminate]. injection Hhandler as <-. apply Hid. solve_selection.
  - injection Hhandler as <-. apply Hid. solve_selection.
  - case_match; [| discriminate]. injection Hhandler as <-. apply Hid.
    unfold openEditor. solve_selection.
  - case_match; [| discriminate]. injection Hhandler as <-. apply Hid.
    unfold download. solve_selection.
  - case_match; [| discriminate]. injection Hhandler as <-. apply Hid.
    unfold onEditorDone. solve_selection.
  - case_match; [| discriminate]. injection Hhandler as <-. apply Hid. solve_selection.
  - destruct (tweets p !! idx) as [tweet|]; [| discriminate].
    injection Hhandler as <-. apply Hid. unfold openTweetEditor. solve_selection.
  - case_match; [| discriminate]. injection Hhandler as <-. apply Hid.
    unfold forget, sendTweetMessage. solve_selection.
  - case_match; [| discriminate]. injection Hhandler as <-. apply Hid.
    unfold acceptTweetUpdate. solve_selection.
  - case_match; [| discriminate]. injection Hhandler as <-. apply Hid. solve_selection.
  - case_match; [| discriminate]. injection Hhandler as <-. apply Hid. solve_selection.
Qed.

(** X10.  In every state a session can reach, whatever the backend
    answers and in whatever order the answers arrive, every selected link
    is the link of an article in the article list: the selection never
    refers to an article that is not on the page. *)
Theorem selection_within_articles (sid : string) (evs : list Event) (w : World) :
  run evs (start sid) = Some w ->
  forall link : string,
    link ∈ selectedArticles (page w) ->
    exists a : Article.t, a ∈ articles (page w) /\ Article.link a = link.
Proof.
  intros Hrun link Hlink.
  assert (Hgood : good_for selection_ok w).
  { apply (run_good_for selection_ok handler_keeps_selection evs (start sid) w Hrun).
    split; [| constructor]. unfold selection_ok. reflexivity. }
  destruct Hgood as [Hpage _].
  destruct (proj1 (list_elem_of_fmap _ _ _) (Hpage link Hlink)) as (a & -> & Ha).
  by exists a.
Qed.

Lemma selection_within_articles_witness :
  exists a : Article.t,
    a ∈ articles (page (default (start "s1") (run Sample.tweets_story (start "s1"))))
    /\ Article.link a = "https://example.org/a2".
Proof.
  apply (selection_within_articles "s1" Sample.tweets_story
           (default (start "s1") (run Sample.tweets_story (start "s1")))).
  - vm_compute. reflexivity.
  - vm_compute. right. left.
Defined.

(** Why X9 asks for distinct links: the limit counts selected links, not
    articles.  When the feed lists an article twice, unchecking and
    checking it again leaves five links selected and six check boxes
    checked; Get Summaries is enabled and sends six articles. *)
Example repeated_link_passes_the_limit :
  length ∘ selectedArticles ∘ page <$> run Scenario.repeated_story (start "s1") = Some 5
  /\ length ∘ checked_articles ∘ page <$> run Scenario.repeated_story (start "s1") = Some 6
  /\ requests_of ∘ log
       <$> run [User (Click GetSummariesButton)]
             (default (start "s1") (run Scenario.repeated_story (start "s1")))
     = Some [POST "/aggregate" (Aggregate []);
             POST "/highlights" (Highlights "s1" (Sample.article <$> [1; 2; 3; 4; 5; 5]));
             POST "/summaries_selected"
               (SummariesSelected (Sample.article <$> [1; 2; 3; 4; 5; 5]))].
Proof. repeat split; vm_compute; reflexivity. Qed.

(** ** One request per operation *)

Lemma disciplined_exec {R : Type} (o : option Operation) (t : Task State R) :
  forall (acc : State -> State) (s : State),
    disciplined o acc t ->
    status_disciplined (status (exec t (acc s)))
    /\ ((is_waiting (status (exec t (acc s))) = true
         /\ status_owner (status (exec t (acc s))) = o
         /\ flags_kept s (live (exec t (acc s))))
        \/ (status_owner (status (exec t (acc s))) = None
            /\ is_waiting (status (exec t (acc s))) = false
            /\ flags_released o s (live (exec t (acc s))))).
Proof.
  induction t as [v| |f k IH|msg k IH|msg k IH|rq k _ catch _]; intros acc s Ht; cbn in *.
  - split; [done |]. right. by repeat split.
  - split; [done |]. right. by repeat split.
  - apply (IH (f ∘ acc) s Ht).
  - apply (IH acc s Ht).
  - apply (IH acc s Ht).
  - destruct Ht as (Howner & Hkept & Hk & Hcatch). subst o.
    split; [done |]. left. by repeat split.
Qed.

Lemma disciplined_settle (be : Backend) (st : Status State unit) (s : State) :
  status_disciplined st ->
  status_disciplined (status (settle be st s))
  /\ ((is_waiting (status (settle be st s)) = true
       /\ status_owner (status (settle be st s)) = status_owner st
       /\ flags_kept s (live (settle be st s)))
      \/ (status_owner (status (settle be st s)) = None
          /\ is_waiting (status (settle be st s)) = false
          /\ flags_released (status_owner st) s (live (settle be st s)))).
Proof.
  intros Hst. destruct st as [v| |rq k catch]; cbn.
  - split; [done |]. right. by repeat split.
  - split; [done |]. right. by repeat split.
  - destruct Hst as [Hk Hcatch].
    destruct (be rq) as [data|]; by apply (disciplined_exec (owner rq) _ id s).
Qed.

Lemma outstanding_app (x : Operation) (l l' : list (Status State unit)) :
  outstanding x (l ++ l') = outstanding x l + outstanding x l'.
Proof. unfold outstanding. by rewrite filter_app, length_app. Qed.

Lemma outstanding_suspended (x : Operation) (st : Status State unit) :
  outstanding x (suspended st) = if bool_decide (status_owner st = Some x) then 1 else 0.
Proof.
  unfold outstanding, suspended.
  destruct st as [v| |rq k catch]; cbn [is_waiting status_owner];
    [by rewrite bool_decide_eq_false_2 ..|].
  rewrite filter_cons, filter_nil. cbn [status_owner].
  case_decide; case_bool_decide; done.
Qed.

Lemma outstanding_delete (x : Operation) (l : list (Status State unit)) :
  forall (i : nat) (st : Status State unit),
    l !! i = Some st ->
    outstanding x l
    = outstanding x (delete i l) + if bool_decide (status_owner st = Some x) then 1 else 0.
Proof.
  unfold outstanding.
  induction l as [|st' l IH]; intros i st Hi; [discriminate |].
  destruct i as [|i]; cbn in Hi.
  - injection Hi as ->. cbn [delete list_delete]. rewrite filter_cons.
    destruct (decide (status_owner st = Some x)) as [Hx | Hx];
      [rewrite bool_decide_eq_true_2 by done | rewrite bool_decide_eq_false_2 by done];
      cbn [length]; lia.
  - cbn [delete list_delete]. rewrite !filter_cons.
    destruct (decide (status_owner st' = Some x)); cbn [length];
      rewrite (IH i st Hi); reflexivity.
Qed.

Lemma unowned_call (t : Task State unit) (p : State) :
  disciplined None id t ->
  status_disciplined (status (exec t p))
  /\ status_owner (status (exec t p)) = None
  /\ flags_kept p (live (exec t p)).
Proof.
  intros Ht. destruct (disciplined_exec None t id p Ht) as [Hst Hcases].
  split; [exact Hst |].
  destruct Hcases as [(_ & Howner & Hkept) | (Howner & _ & Hreleased)]; by split.
Qed.

Lemma handler_disciplined (e : UserEvent) (p : State) (t : Task State unit) :
  handler e p = Some t ->
  status_disciplined (status (exec t p))
  /\ match status_owner (status (exec t p)) with
     | Some x =>
         flag x p = false
         /\ forall y, flag y (live (exec t p)) = if bool_decide (y = x) then true else flag y p
     | None => flags_kept p (live (exec t p))
     end.
Proof.
  intros Hhandler.
  assert (Hunowned : forall t' : Task State unit,
             disciplined None id t' ->
             status_disciplined (status (exec t' p))
             /\ match status_owner (status (exec t' p)) with
                | Some x =>
                    flag x p = false
                    /\ forall y, flag y (live (exec t' p))
                                 = if bool_decide (y = x) then true else flag y p
                | None => flags_kept p (live (exec t' p))
                end).
  { intros t' Ht'. destruct (unowned_call t' p Ht') as (Hst & Howner & Hkept).
    split; [exact Hst |]. by rewrite Howner. }
  destruct e as [b| | | | | | | | | | | | | |];
    unfold handler in Hhandler; cbv beta iota zeta in Hhandler.
  - unfold click in Hhandler.
    destruct (rendered b p && negb (disabled b p)) eqn:Hshown; [| discriminate].
    injection Hhandler as <-.
    apply andb_true_iff in Hshown as [_ Henabled%negb_true_iff].
    destruct b; cbn [disabled] in Henabled.
    + split; [unfold onClick, fetchAndSummarize; solve_disciplined |].
      cbn. split; [exact Henabled | intros y; by destruct y].
    + apply Hunowned. unfold onClick, resetSummaries. solve_disciplined.
    + apply orb_false_iff in Henabled as [Hflag _].
      unfold onClick, getHighlights. case_bool_decide.
      * apply Hunowned. solve_disciplined.
      * split; [solve_disciplined |].
        cbn. split; [exact Hflag | intros y; by destruct y].
    + apply orb_false_iff in Henabled as [_ Hflag].
      split; [unfold onClick, makeTweets; solve_disciplined |].
      cbn. split; [exact Hflag | intros y; by destruct y].
    + apply orb_false_iff in Henabled as [_ Hflag].
      split; [unfold onClick, makeNewsletter; solve_disciplined |].
      cbn. split; [exact Hflag | intros y; by destruct y].
    + apply Hunowned. solve_disciplined.
    + apply Hunowned. solve_disciplined.
  - case_match; [| discriminate]. injection Hhandler as <-. apply Hunowned.
    solve_disciplined.
  - case_match; [| discriminate]. injection Hhandler as <-. apply Hunowned.
    solve_disciplined.
  - case_match; [| discriminate]. injection Hhandler as <-. apply Hunowned.
    solve_disciplined.
  - case_match; [| discriminate]. injection Hhandler as <-. apply Hunowned.
    solve_disciplined.
  - injection Hhandler as <-. apply Hunowned. solve_disciplined.
  - case_match; [| discriminate]. injection Hhandler as <-. apply Hunowned.
    unfold openEditor. solve_disciplined.
  - case_match; [| discriminate]. injection Hhandler as <-. apply Hunowned.
    unfold download. solve_disciplined.
  - case_match; [| discriminate]. injection Hhandler as <-. apply Hunowned.
    unfold onEditorDone. solve_disciplined.
  - case_match; [| discriminate]. injection Hhandler as <-. apply Hunowned.
    solve_disciplined.
  - destruct (tweets p !! idx) as [tweet|]; [| discriminate].
    injection Hhandler as <-. apply Hunowned. unfold openTweetEditor. solve_disciplined.
  - case_match; [| discriminate]. injection Hhandler as <-. apply Hunowned.
    unfold forget, sendTweetMessage. solve_disciplined.
  - case_match; [| discriminate]. injection Hhandler as <-. apply Hunowned.
    unfold acceptTweetUpdate. solve_disciplined.
  - case_match; [| discriminate]. injection Hhandler as <-. apply Hunowned.
    solve_disciplined.
  - case_match; [| discriminate]. injection Hhandler as <-. apply Hunowned.
    solve_disciplined.
Qed.

Lemma Forall_suspended_disciplined (st : Status State unit) :
  status_disciplined st -> Forall status_disciplined (suspended st).
Proof. intros Hst. unfold suspended. destruct (is_waiting st); by constructor. Qed.

Lemma step_tidy (ev : Event) (w w' : World) : step ev w = Some w' -> tidy w -> tidy w'.
Proof.
  intros Hstep [Hpending Hcount]. destruct ev as [e | i be]; cbn in Hstep.
  - destruct (handler e (page w)) as [t|] eqn:Hhandler; [| discriminate].
    injection Hstep as <-.
    destruct (handler_disciplined e (page w) t Hhandler) as [Hst Hflags].
    split; cbn [pending page].
    + apply Forall_app. split; [done | by apply Forall_suspended_disciplined].
    + intros y. rewrite outstanding_app, outstanding_suspended, Hcount.
      destruct (status_owner (status (exec t (page w)))) as [x|].
      * destruct Hflags as [Hfree Hset]. rewrite (Hset y).
        destruct (decide (y = x)) as [-> | Hy].
        -- by rewrite Hfree, !bool_decide_eq_true_2.
        -- rewrite !bool_decide_eq_false_2 by congruence.
           destruct (flag y (page w)); lia.
      * rewrite (Hflags y), bool_decide_eq_false_2 by done.
        destruct (flag y (page w)); lia.
  - destruct (pending w !! i) as [st|] eqn:Hi; [| discriminate].
    injection Hstep as <-.
    assert (Hst : status_disciplined st) by (eapply Forall_lookup_1; eauto).
    destruct (disciplined_settle be st (page w) Hst) as [Hst' Hcases].
    split; cbn [pending page].
    + apply Forall_app.
      split; [by apply Forall_delete | by apply Forall_suspended_disciplined].
    + intros y. rewrite outstanding_app, outstanding_suspended.
      pose proof (Hcount y) as Hy. rewrite (outstanding_delete y _ i st Hi) in Hy.
      destruct Hcases as [(_ & Howner & Hkept) | (Howner & _ & Hreleased)].
      * by rewrite Howner, (Hkept y).
      * rewrite Howner, (Hreleased y), bool_decide_eq_false_2 by done.
        destruct (decide (status_owner st = Some y)) as [Hmine | Hother].
        -- rewrite bool_decide_eq_true_2 in Hy |- * by done.
           destruct (flag y (page w)); lia.
        -- rewrite bool_decide_eq_false_2 in Hy |- * by done. lia.
Qed.

Lemma run_tidy (evs : list Event) : forall w w' : World,
  run evs w = Some w' -> tidy w -> tidy w'.
Proof.
  induction evs as [|ev evs IH]; intros w w' Hrun Hw; cbn in Hrun.
  - by injection Hrun as <-.
  - destruct (step ev w) as [w1|] eqn:Hstep; [| discriminate].
    apply (IH w1 w' Hrun). by apply (step_tidy ev w).
Qed.

(** X11.  In every state a session can reach, whatever the backend does,
    each of the four pipeline operations has its loading flag set exactly
    while one request of it is outstanding, and never has two outstanding:
    the disabled buttons keep a second one out, and every answer or
    failure that ends the operation clears the flag. *)
Theorem one_request_per_operation
    (sid : string) (evs : list Event) (w : World) (x : Operation) :
  run evs (start sid) = Some w ->
  outstanding x (pending w) = (if flag x (page w) then 1 else 0)
  /\ outstanding x (pending w) <= 1
  /\ (flag x (page w) = false ->
      forall st, st ∈ pending w -> status_owner st ≠ Some x).
Proof.
  intros Hrun.
  assert (Htidy : tidy w).
  { apply (run_tidy evs (start sid) w Hrun). split; [constructor |].
    intros y. by destruct y. }
  destruct Htidy as [_ Hcount]. specialize (Hcount x).
  split; [exact Hcount |]. split; [destruct (flag x (page w)); lia |].
  intros Hfree st Hst Hmine. rewrite Hfree in Hcount.
  unfold outstanding in Hcount. apply length_zero_iff_nil in Hcount.
  eapply (filter_nil_not_elem_of _ _ st); eauto.
Qed.

Lemma one_request_per_operation_witness :
  outstanding Summarize
    (pending (default (start "s1") (run Sample.before_replacement_story (start "s1"))))
  = 1.
Proof.
  destruct (one_request_per_operation "s1" Sample.before_replacement_story
              (default (start "s1") (run Sample.before_replacement_story (start "s1")))
              Summarize) as (Hcount & _); [vm_compute; reflexivity |].
  rewrite Hcount. vm_compute. reflexivity.
Defined.

(** * The modal editor *)




(** X13.  The modal's [applyEdit] always comes to an end with the loading
    flag cleared and never throws, whatever the backend does.  It sends
    the text, the instruction and the whole history of the modal; an
    answer replaces text and history by the returned ones, a failure is
    logged and leaves both as they were.  The instruction is never
    changed. *)
Theorem applyEdit_always_settles
    (props : EditorModal.Props) (s : EditorModal.State) (be : Backend) :
  status (after_apply be props s) = Finished tt
  /\ EditorModal.loading (live (after_apply be props s)) = false
  /\ EditorModal.instruction (live (after_apply be props s)) = EditorModal.instruction s
  /\ requests_of (trace (after_apply be props s)) = [edit_request props s]
  /\ match be (edit_request props s) with
     | Some data =>
         EditorModal.text (live (after_apply be props s)) = EditData.edited_text data
         /\ EditorModal.history (live (after_apply be props s)) = EditData.history data
         /\ trace (after_apply be props s) = [Sent (edit_request props s)]
     | None =>
         EditorModal.text (live (after_apply be props s)) = EditorModal.text s
         /\ EditorModal.history (live (after_apply be props s)) = EditorModal.history s
         /\ exists msg, trace (after_apply be props s)
                        = [Sent (edit_request props s); Logged msg]
     end.
Proof.
  unfold after_apply, EditorModal.applyEdit, edit_request. cbn.
  destruct (be _) as [data|]; cbn; repeat split. eauto.
Qed.

(** A text rejected at its first character is falsy or does not parse. *)
Lemma rejected_not_loaded (saved : string) :
  Storage.rejected saved = true ->
  truthy saved = false \/ JSON.parse saved = None.
Proof.
  destruct saved as [|c rest]; [by left |]. intros Hrejected. right.
  unfold JSON.parse. cbn [JSON.expect].
  destruct (Ascii.eqb_spec "[" c) as [<- | _]; [discriminate Hrejected | reflexivity].
Qed.

(** The history of the first render is empty. *)
Lemma first_render_history (props : EditorModal.Props) :
  EditorModal.history (EditorModal.text_effect props (EditorModal.initial props)) = [].
Proof. unfold EditorModal.text_effect. by destruct (EditorModal.open props). Qed.

(** X14.  Mounting the modal leaves the store in step with the modal.
    When the store holds the text of a history under the session's key,
    the modal starts with that history; when it holds nothing there, or a
    text that [JSON.parse] rejects at its first character (the empty text
    included), the modal starts with the empty history.  In each case the
    store holds after the mount the JSON text of exactly the history the
    modal starts with, every other key is untouched, and the text of the
    modal is the initial text. *)
Theorem mount_mirrors_history
    (props : EditorModal.Props) (localStorage : gmap string string) (h : list Turn.t) :
  Storage.saved_history props localStorage h ->
  EditorModal.history (fst (EditorModal.mount props localStorage)) = h
  /\ snd (EditorModal.mount props localStorage) !! EditorModal.storage_key props
     = Some (JSON.stringify h)
  /\ (forall k : string,
        k ≠ EditorModal.storage_key props ->
        snd (EditorModal.mount props localStorage) !! k = localStorage !! k)
  /\ EditorModal.text (fst (EditorModal.mount props localStorage))
     = EditorModal.initialText props.
Proof.
  intros Hsaved.
  assert (Htext : forall s0 : EditorModal.State,
             EditorModal.text s0 = EditorModal.initialText props ->
             EditorModal.text (EditorModal.text_effect props s0)
             = EditorModal.initialText props)
    by (intros s0 Hs0; unfold EditorModal.text_effect;
        by destruct (EditorModal.open props)).
  unfold EditorModal.mount, EditorModal.save_effect.
  destruct Hsaved as [Hnone | saved Hsome Hrejected | h Hturns].
  - unfold EditorModal.load_effect. rewrite Hnone. cbn [fst snd].
    rewrite first_render_history.
    split; [reflexivity |]. split; [by rewrite lookup_insert_eq |].
    split; [intros k Hk; by rewrite lookup_insert_ne | by apply Htext].
  - unfold EditorModal.load_effect. rewrite Hsome.
    destruct (rejected_not_loaded saved Hrejected) as [Hfalsy | Hfails].
    + rewrite Hfalsy. cbn [andb fst snd]. rewrite first_render_history.
      split; [reflexivity |]. split; [by rewrite lookup_insert_eq |].
      split; [intros k Hk; by rewrite lookup_insert_ne | by apply Htext].
    + rewrite Hfails.
      rewrite (bool_decide_eq_false_2 (is_Some None)) by (intros [? ?]; discriminate).
      rewrite andb_false_r.
      assert (Hsame : (if truthy saved
                       then EditorModal.text_effect props (EditorModal.initial props)
                       else EditorModal.text_effect props (EditorModal.initial props))
                      = EditorModal.text_effect props (EditorModal.initial props))
        by by destruct (truthy saved).
      rewrite Hsame. cbn [fst snd]. rewrite first_render_history.
      split; [reflexivity |]. split; [by rewrite lookup_insert_eq |].
      split; [intros k Hk; by rewrite lookup_insert_ne | by apply Htext].
  - rewrite (load_effect_stored props localStorage h _ Hturns), Hturns.
    rewrite stringify_truthy, parse_stringify.
    rewrite bool_decide_eq_true_2 by eauto. cbn [andb fst snd].
    split; [reflexivity |]. split; [by rewrite lookup_insert_eq |].
    split; [intros k Hk; by rewrite !lookup_insert_ne |].
    by apply Htext.
Qed.

Lemma mount_mirrors_history_witness :
  EditorModal.history
    (fst (EditorModal.mount (editorModal Sample.editing_summary) Scenario.corrupt_store))
  = []
  /\ snd (EditorModal.mount (editorModal Sample.editing_summary) Scenario.corrupt_store)
       !! "mem_s1"
     = Some "[]".
Proof.
  destruct (mount_mirrors_history (editorModal Sample.editing_summary)
              Scenario.corrupt_store []) as (Hhistory & Hstored & _).
  { apply (Storage.saved_rejected _ _ "undefined"); [vm_compute; reflexivity | reflexivity]. }
  split; [exact Hhistory | exact Hstored].
Defined.
